(** * Crop-prediction live map: session orchestrator, grounded
    recommendation service and agricultural form

    A shallow embedding of
    - the [useLiveApi] hook (event handlers, tool-call protocol, [connect]),
    - [zoomToLocation] and [fetchAgriculturalRecommendations],
    - the change handlers of [AgriculturalForm],
    followed by the properties the specification states about them.

    Asynchronous code is embedded in a state monad whose computations end in
    one of three ways: they return, they throw, or they stay pending for
    ever (a promise that never settles).  An awaited call runs to its end
    before the caller goes on; the listeners of other events are not
    interleaved with it.  Console output is not modelled. *)

From Stdlib Require Import String Ascii List Bool Arith Lia.
From Stdlib Require Import PrimFloat.
Import ListNotations.

Open Scope string_scope.
Open Scope list_scope.

(* ================================================================= *)
(** ** JavaScript values *)

(** A JavaScript number is an IEEE 754 binary64. *)
Definition number : Set := float.

(** [ToBoolean] on a number: [+0], [-0] and [NaN] are the falsy numbers. *)
Definition isZero (x : number) : bool := PrimFloat.eqb x 0%float.
Definition isNaN (x : number) : bool := negb (PrimFloat.eqb x x).
Definition truthyNumber (x : number) : bool := negb (isZero x || isNaN x).

(** [ToBoolean] on a string: only the empty string is falsy. *)
Definition truthyString (s : string) : bool :=
  match s with
  | EmptyString => false
  | String _ _ => true
  end.

(** [x || undefined] on a number. *)
Definition orUndefined (x : number) : option number :=
  if truthyNumber x then Some x else None.

(** [x || 0] on a number. *)
Definition orZero (x : number) : number :=
  if truthyNumber x then x else 0%float.

(** JSON data: tool arguments, tool results, request and response bodies. *)
Unset Elimination Schemes.
Inductive Json : Type :=
| JNull
| JBool (b : bool)
| JNumber (x : number)
| JString (s : string)
| JArray (items : list Json)
| JObject (fields : list (string * Json)).
Set Elimination Schemes.

(** The line feed of the template literals. *)
Definition nl : string := String (ascii_of_nat 10) EmptyString.

(** [String(n)] for a non-negative integer, in decimal. *)
Fixpoint digitsOf (fuel n : nat) (acc : string) : string :=
  match fuel with
  | O => acc
  | S fuel' =>
      let d := String (ascii_of_nat (48 + n mod 10)) acc in
      match n / 10 with
      | O => d
      | q => digitsOf fuel' q d
      end
  end.

Definition natToString (n : nat) : string := digitsOf (S n) n EmptyString.

(** Thrown values.  The code throws plain [Error] objects only. *)
Inductive Exn : Type :=
| Error (message : string).

(* ================================================================= *)
(** ** Computations: state, exceptions, pending promises *)

Inductive Outcome (A : Type) : Type :=
| Returned (a : A)
| Thrown (e : Exn)
| Pending.

Arguments Returned {A} a.
Arguments Thrown {A} e.
Arguments Pending {A}.

Definition M (S A : Type) : Type := S -> S * Outcome A.

Definition ret {S A} (a : A) : M S A := fun s => (s, Returned a).

Definition throw {S A} (e : Exn) : M S A := fun s => (s, Thrown e).

Definition bind {S A B} (m : M S A) (k : A -> M S B) : M S B :=
  fun s =>
    match m s with
    | (s', Returned a) => k a s'
    | (s', Thrown e) => (s', Thrown e)
    | (s', Pending) => (s', Pending)
    end.

(** [try { m } catch (error) { h error }] *)
Definition tryCatch {S A} (m : M S A) (h : Exn -> M S A) : M S A :=
  fun s =>
    match m s with
    | (s', Thrown e) => h e s'
    | r => r
    end.

(** [try { m } finally { f }]: the cleanup runs when [m] returns or throws;
    it never runs while [m] is pending.  A cleanup that itself throws
    replaces the outcome of [m]. *)
Definition tryFinally {S A} (m : M S A) (f : M S unit) : M S A :=
  fun s =>
    match m s with
    | (s', Pending) => (s', Pending)
    | (s', o) =>
        match f s' with
        | (s'', Returned _) => (s'', o)
        | (s'', Thrown e) => (s'', Thrown e)
        | (s'', Pending) => (s'', Pending)
        end
    end.

(** A state update that cannot fail. *)
Definition update {S} (f : S -> S) : M S unit := fun s => (f s, Returned tt).

Declare Scope js_scope.
Delimit Scope js_scope with js.
Notation "x <- m ;; k" := (bind m (fun x => k))
  (at level 61, m at next level, right associativity) : js_scope.
Notation "m ;; k" := (bind m (fun _ => k))
  (at level 61, right associativity) : js_scope.
Open Scope js_scope.

(* ================================================================= *)
(** ** Stores *)

Inductive Role : Set := user | agent | system.

Record ConversationTurn : Type := {
  role : Role;
  text : string;
  isFinal : bool
}.

(** [Partial<ConversationTurn>], the argument of [updateLastTurn]. *)
Record TurnUpdate : Type := {
  newRole : option Role;
  newText : option string;
  newIsFinal : option bool
}.

(** Modelled from the spec: the log store ([useLogStore] of [@/lib/state],
    which is not part of the sources).  The transcript is an ordered
    sequence of turns; the "awaiting tool response" flag is a boolean.
    [awaitingHistory] records every value written to the flag, oldest
    first, so that the order of the writes can be stated. *)
Record LogStore : Type := {
  turns : list ConversationTurn;
  isAwaitingFunctionResponse : bool;
  awaitingHistory : list bool
}.

(** Modelled from the spec: [addTurn] of the log store appends one turn. *)
Definition pushTurn (t : ConversationTurn) (l : LogStore) : LogStore :=
  {| turns := turns l ++ [t];
     isAwaitingFunctionResponse := isAwaitingFunctionResponse l;
     awaitingHistory := awaitingHistory l |}.

(** Modelled from the spec: [clearTurns] of the log store empties the
    transcript. *)
Definition clearTurnsOf (l : LogStore) : LogStore :=
  {| turns := [];
     isAwaitingFunctionResponse := isAwaitingFunctionResponse l;
     awaitingHistory := awaitingHistory l |}.

(** Modelled from the spec: [setIsAwaitingFunctionResponse] of the log store
    writes the flag. *)
Definition writeAwaiting (b : bool) (l : LogStore) : LogStore :=
  {| turns := turns l;
     isAwaitingFunctionResponse := b;
     awaitingHistory := awaitingHistory l ++ [b] |}.

(** Modelled from the spec: the fields an update carries replace those of
    the turn ([updateLastTurn] of the log store). *)
Definition mergeTurn (u : TurnUpdate) (t : ConversationTurn) : ConversationTurn :=
  {| role := match newRole u with Some r => r | None => role t end;
     text := match newText u with Some x => x | None => text t end;
     isFinal := match newIsFinal u with Some b => b | None => isFinal t end |}.

(** Modelled from the spec: only the last entry of the transcript is
    eligible for mutation; on an empty transcript nothing happens. *)
Fixpoint mergeLast (u : TurnUpdate) (ts : list ConversationTurn)
  : list ConversationTurn :=
  match ts with
  | [] => []
  | [t] => [mergeTurn u t]
  | t :: rest => t :: mergeLast u rest
  end.

(** Modelled from the spec: [updateLastTurn] of the log store. *)
Definition updateLastTurnOf (u : TurnUpdate) (l : LogStore) : LogStore :=
  {| turns := mergeLast u (turns l);
     isAwaitingFunctionResponse := isAwaitingFunctionResponse l;
     awaitingHistory := awaitingHistory l |}.

(** [turns[turns.length - 1]]: [undefined] on an empty array. *)
Definition lastTurnOf (ts : list ConversationTurn) : option ConversationTurn :=
  nth_error ts (List.length ts - 1).

Record LatLngAltitude : Type := {
  lat : number;
  lng : number;
  altitude : number
}.

Record CameraTarget : Type := {
  center : LatLngAltitude;
  range : number;
  tilt : number;
  heading : number;
  roll : number
}.

(** Modelled from the spec: the map store ([useMapStore] of [@/lib/state],
    which is not part of the sources).  The camera target is
    last-writer-wins; [cameraTargetUpdates] records every target written,
    oldest first, so that updates can be counted. *)
Record MapStore : Type := {
  markers : list Json;
  cameraTarget : option CameraTarget;
  preventAutoFrame : bool;
  cameraTargetUpdates : list CameraTarget
}.

(** Modelled from the spec: [setCameraTarget] of the map store. *)
Definition setCameraTarget (t : CameraTarget) : M MapStore unit :=
  update (fun m =>
    {| markers := markers m;
       cameraTarget := Some t;
       preventAutoFrame := preventAutoFrame m;
       cameraTargetUpdates := cameraTargetUpdates m ++ [t] |}).

(** Modelled from the spec: [setPreventAutoFrame] of the map store. *)
Definition setPreventAutoFrame (b : bool) : M MapStore unit :=
  update (fun m =>
    {| markers := markers m;
       cameraTarget := cameraTarget m;
       preventAutoFrame := b;
       cameraTargetUpdates := cameraTargetUpdates m |}).

(** Modelled from the spec: [clearMarkers] of the map store. *)
Definition clearMarkersOf (m : MapStore) : MapStore :=
  {| markers := [];
     cameraTarget := cameraTarget m;
     preventAutoFrame := preventAutoFrame m;
     cameraTargetUpdates := cameraTargetUpdates m |}.

(* ================================================================= *)
(** ** The live session client *)

Inductive Status : Set := Disconnected | Connecting | Connected.

(** [LiveConnectConfig]: an object of optional settings; [{}] is [[]]. *)
Definition LiveConnectConfig : Type := list (string * Json).

Record FunctionCall : Type := {
  id : string;
  name : string;
  args : Json
}.

(** [{ id, name, response: { result } }] *)
Record FunctionResponse : Type := {
  responseId : string;
  responseName : string;
  result : Json
}.

Record LiveServerToolCall : Type := {
  functionCalls : list FunctionCall
}.

(** Modelled from the spec: the live session client ([GenAILiveClient],
    which is not part of the sources).  [sessions] are the connections
    currently open on the transport, oldest first; [connect] opens one more
    ("calling while already connected must first disconnect"),
    [disconnect] tears down whatever is open and is a no-op when nothing
    is.  [toolResponses] and [realtimeTexts] record the calls of
    [sendToolResponse] and [sendRealtimeText], oldest first. *)
Record LiveClient : Type := {
  status : Status;
  sessions : list LiveConnectConfig;
  toolResponses : list (list FunctionResponse);
  realtimeTexts : list string
}.

(** Modelled from the spec: [disconnect] of the live client. *)
Definition disconnectClient (c : LiveClient) : LiveClient :=
  {| status := Disconnected;
     sessions := [];
     toolResponses := toolResponses c;
     realtimeTexts := realtimeTexts c |}.

(** Modelled from the spec: the connectivity state of the live client. *)
Definition withStatus (st : Status) (c : LiveClient) : LiveClient :=
  {| status := st;
     sessions := sessions c;
     toolResponses := toolResponses c;
     realtimeTexts := realtimeTexts c |}.

(** Modelled from the spec: [connect] of the live client, the transport
    being established. *)
Definition openSession (config : LiveConnectConfig) (c : LiveClient) : LiveClient :=
  {| status := Connected;
     sessions := sessions c ++ [config];
     toolResponses := toolResponses c;
     realtimeTexts := realtimeTexts c |}.

(** Modelled from the spec: [sendToolResponse] of the live client. *)
Definition recordToolResponse (rs : list FunctionResponse) (c : LiveClient)
  : LiveClient :=
  {| status := status c;
     sessions := sessions c;
     toolResponses := toolResponses c ++ [rs];
     realtimeTexts := realtimeTexts c |}.

(** Modelled from the spec: [sendRealtimeText] of the live client. *)
Definition recordRealtimeText (t : string) (c : LiveClient) : LiveClient :=
  {| status := status c;
     sessions := sessions c;
     toolResponses := toolResponses c;
     realtimeTexts := realtimeTexts c ++ [t] |}.

(* ================================================================= *)
(** ** The tool registry and the session orchestrator ([useLiveApi]) *)

(** The handles a tool receives.  The two state setters of the context act
    on the world the tool runs in. *)
Record ToolContext : Type := {
  map : option nat;
  placesLib : option nat;
  elevationLib : option nat;
  geocoder : option nat;
  padding : number * number * number * number
}.

Section LiveApi.

(** Everything a tool reaches besides the stores below: the map element,
    the held grounding results, the remote services. *)
Context {World : Type}.

Record State : Type := {
  logStore : LogStore;
  mapStore : MapStore;
  client : LiveClient;
  connected : bool;
  world : World
}.

(** A tool handler works on the map store and the world; it returns a
    result, throws, or never settles. *)
Definition ToolImplementation : Type :=
  Json -> ToolContext -> MapStore * World -> (MapStore * World) * Outcome Json.

(** What the sources do not contain and the orchestrator relies on. *)
Record Env : Type := {
  (** [toolRegistry[name]]; [None] when the lookup is falsy. *)
  toolRegistry : string -> option ToolImplementation;
  (** [JSON.stringify(value, null, 2)] *)
  stringify : Json -> string;
  (** Whether [addTurn] of the log store throws on this turn. *)
  addTurnFault : ConversationTurn -> LogStore -> option Exn;
  (** Whether [client.sendToolResponse] throws on this batch. *)
  sendFault : list FunctionResponse -> LiveClient -> option Exn;
  (** How the transport answers [client.connect(config)]. *)
  transport : LiveConnectConfig -> Outcome unit
}.

Variable env : Env.

Definition onLog (f : LogStore -> LogStore) (s : State) : State :=
  {| logStore := f (logStore s);
     mapStore := mapStore s;
     client := client s;
     connected := connected s;
     world := world s |}.

Definition onMap (f : MapStore -> MapStore) (s : State) : State :=
  {| logStore := logStore s;
     mapStore := f (mapStore s);
     client := client s;
     connected := connected s;
     world := world s |}.

Definition onClient (f : LiveClient -> LiveClient) (s : State) : State :=
  {| logStore := logStore s;
     mapStore := mapStore s;
     client := f (client s);
     connected := connected s;
     world := world s |}.

Definition setConnected (b : bool) : M State unit :=
  update (fun s =>
    {| logStore := logStore s;
       mapStore := mapStore s;
       client := client s;
       connected := b;
       world := world s |}).

(** Modelled from the spec: [useLogStore.getState().addTurn(turn)] appends
    the turn, unless the store throws. *)
Definition addTurn (t : ConversationTurn) : M State unit :=
  fun s =>
    match addTurnFault env t (logStore s) with
    | Some e => (s, Thrown e)
    | None => (onLog (pushTurn t) s, Returned tt)
    end.

(** Modelled from the spec:
    [useLogStore.getState().setIsAwaitingFunctionResponse(b)]. *)
Definition setIsAwaitingFunctionResponse (b : bool) : M State unit :=
  update (onLog (writeAwaiting b)).

(** Modelled from the spec: [updateLastTurn(update)] of the log store. *)
Definition updateLastTurn (u : TurnUpdate) : M State unit :=
  update (onLog (updateLastTurnOf u)).

(** Modelled from the spec: [useLogStore.getState().clearTurns()]. *)
Definition clearTurns : M State unit := update (onLog clearTurnsOf).

(** Modelled from the spec: [useMapStore.getState().clearMarkers()]. *)
Definition clearMarkers : M State unit := update (onMap clearMarkersOf).

(** Modelled from the spec: [client.disconnect()]. *)
Definition clientDisconnect : M State unit := update (onClient disconnectClient).

(** Modelled from the spec: [await client.connect(config)]; a transport
    that cannot be established leaves the client disconnected and throws. *)
Definition clientConnect (config : LiveConnectConfig) : M State unit :=
  fun s =>
    match transport env config with
    | Returned _ => (onClient (openSession config) s, Returned tt)
    | Thrown e => (onClient (withStatus Disconnected) s, Thrown e)
    | Pending => (onClient (withStatus Connecting) s, Pending)
    end.

(** Modelled from the spec: [client.sendToolResponse({ functionResponses })];
    the call is recorded whether or not the client then throws. *)
Definition sendToolResponse (rs : list FunctionResponse) : M State unit :=
  fun s =>
    let s' := onClient (recordToolResponse rs) s in
    match sendFault env rs (client s) with
    | Some e => (s', Thrown e)
    | None => (s', Returned tt)
    end.

(** Modelled from the spec: [client.sendRealtimeText(text)]. *)
Definition sendRealtimeText (t : string) : M State unit :=
  update (onClient (recordRealtimeText t)).

(** [await toolImplementation(fc.args, toolContext)] *)
Definition callTool (impl : ToolImplementation) (a : Json) (ctx : ToolContext)
  : M State Json :=
  fun s =>
    match impl a ctx (mapStore s, world s) with
    | ((m, w), o) =>
        ({| logStore := logStore s;
            mapStore := m;
            client := client s;
            connected := connected s;
            world := w |}, o)
    end.

Definition systemTurn (t : string) : ConversationTurn :=
  {| role := system; text := t; isFinal := true |}.

Definition onOpen : M State unit := setConnected true.

Definition onSetupComplete : M State unit := sendRealtimeText "hello".

Definition closeText (reason : string) : string :=
  "Session ended. Press 'Play' to start a new session. " ++ reason.

Definition onClose (reason : string) : M State unit :=
  setConnected false ;;
  addTurn {| role := agent; text := closeText reason; isFinal := true |}.

Definition finalUpdate : TurnUpdate :=
  {| newRole := None; newText := None; newIsFinal := Some true |}.

Definition onInterrupted : M State unit :=
  fun s =>
    match lastTurnOf (turns (logStore s)) with
    | Some lastTurn =>
        if negb (isFinal lastTurn) then updateLastTurn finalUpdate s
        else (s, Returned tt)
    | None => (s, Returned tt)
    end.

Definition onGenerationComplete : M State unit := ret tt.

Definition triggerMessage (fc : FunctionCall) : string :=
  "Triggering function call: **" ++ name fc ++ "**" ++ nl
    ++ "```json" ++ nl ++ stringify env (args fc) ++ nl ++ "```".

Definition unknownToolMessage (n : string) : string :=
  "Unknown tool called: " ++ n ++ ".".

Definition errorMessage (n : string) : string :=
  "Error executing tool " ++ n ++ ".".

Definition respond (fc : FunctionCall) (r : Json) : FunctionResponse :=
  {| responseId := id fc; responseName := name fc; result := r |}.

(** One iteration of the loop over [toolCall.functionCalls];
    [functionResponses] is the array built so far, the value returned is
    the array after the [push]. *)
Definition handleFunctionCall (ctx : ToolContext) (fc : FunctionCall)
  (functionResponses : list FunctionResponse) : M State (list FunctionResponse) :=
  addTurn (systemTurn (triggerMessage fc)) ;;
  tryCatch
    (toolResponse <-
       match toolRegistry env (name fc) with
       | Some toolImplementation => callTool toolImplementation (args fc) ctx
       | None => ret (JString (unknownToolMessage (name fc)))
       end ;;
     ret (functionResponses ++ [respond fc toolResponse]))
    (fun _ =>
       addTurn (systemTurn (errorMessage (name fc))) ;;
       ret (functionResponses ++ [respond fc (JString (errorMessage (name fc)))])).

Fixpoint handleFunctionCalls (ctx : ToolContext) (calls : list FunctionCall)
  (functionResponses : list FunctionResponse) : M State (list FunctionResponse) :=
  match calls with
  | [] => ret functionResponses
  | fc :: rest =>
      functionResponses' <- handleFunctionCall ctx fc functionResponses ;;
      handleFunctionCalls ctx rest functionResponses'
  end.

Definition responseJson (r : FunctionResponse) : Json :=
  JObject [("id", JString (responseId r));
           ("name", JString (responseName r));
           ("response", JObject [("result", result r)])].

Definition responseMessage (rs : list FunctionResponse) : string :=
  "Function call response:" ++ nl ++ "```json" ++ nl
    ++ stringify env (JArray (List.map responseJson rs)) ++ nl ++ "```".

(** The body of the [try] block of [onToolCall]. *)
Definition toolCallBody (ctx : ToolContext) (toolCall : LiveServerToolCall)
  : M State unit :=
  functionResponses <- handleFunctionCalls ctx (functionCalls toolCall) [] ;;
  (if Nat.ltb 0 (List.length functionResponses)
   then addTurn (systemTurn (responseMessage functionResponses))
   else ret tt) ;;
  sendToolResponse functionResponses.

Definition onToolCall (ctx : ToolContext) (toolCall : LiveServerToolCall)
  : M State unit :=
  setIsAwaitingFunctionResponse true ;;
  tryFinally (toolCallBody ctx toolCall) (setIsAwaitingFunctionResponse false).

(** [connect]: [config] is the hook's state, [None] when it holds
    [null] or [undefined] (the only falsy values an object-typed variable
    can hold; every object, also [{}], is truthy). *)
Definition connect (config : option LiveConnectConfig) : M State unit :=
  match config with
  | None => throw (Error "config has not been set")
  | Some c =>
      clearTurns ;;
      clearMarkers ;;
      clientDisconnect ;;
      clientConnect c
  end.

Definition disconnect : M State unit :=
  clientDisconnect ;;
  setConnected false.

End LiveApi.

Arguments State : clear implicits.
Arguments Env : clear implicits.
Arguments ToolImplementation : clear implicits.

(* ================================================================= *)
(** ** The grounded recommendation service *)

Inductive SoilType : Set := clay | sandy | loamy | silt | peat.
Inductive Climate : Set := tropical | arid | temperate | continental | polar.
Inductive Season : Set := spring | summer | fall | winter.

Definition soilTypeName (x : SoilType) : string :=
  match x with
  | clay => "clay" | sandy => "sandy" | loamy => "loamy"
  | silt => "silt" | peat => "peat"
  end.

Definition climateName (x : Climate) : string :=
  match x with
  | tropical => "tropical" | arid => "arid" | temperate => "temperate"
  | continental => "continental" | polar => "polar"
  end.

Definition seasonName (x : Season) : string :=
  match x with
  | spring => "spring" | summer => "summer" | fall => "fall" | winter => "winter"
  end.

(** [AgriculturalParameters]; an optional field that is [undefined] is
    [None]. *)
Record AgriculturalParameters : Type := {
  latitude : number;
  longitude : number;
  soilType : SoilType;
  climate : Climate;
  season : Season;
  rainfall : option number;
  temperature : option number;
  irrigationAvailable : option bool;
  farmSize : option number;
  previousCrop : option string
}.

Definition AGRICULTURAL_SYS_INSTRUCTIONS : string :=
  "You are an expert agricultural advisor AI. Based on the provided location coordinates and agricultural parameters (soil type, climate, season, rainfall, temperature, irrigation, farm size, previous crop), provide detailed crop recommendations. Include:" ++ nl
  ++ "1. Top 3-5 recommended crops with rationale" ++ nl
  ++ "2. Planting and harvesting timeline" ++ nl
  ++ "3. Expected yield estimates" ++ nl
  ++ "4. Soil preparation requirements" ++ nl
  ++ "5. Water and fertilizer needs" ++ nl
  ++ "6. Potential challenges and mitigation strategies" ++ nl
  ++ "Format your response in clear sections.".

Definition endpoint : string :=
  "https://generativelanguage.googleapis.com/v1beta/models/gemini-2.5-flash:generateContent".

Record Request : Type := {
  url : string;
  method : string;
  headers : list (string * string);
  body : string
}.

(** What [fetch] resolves with: the status line and the body text. *)
Record Response : Type := {
  statusCode : nat;
  responseText : string
}.

(** [response.ok]: the status is in the range 200-299. *)
Definition ok (r : Response) : bool :=
  (200 <=? statusCode r)%nat && (statusCode r <=? 299)%nat.

(** [zoomToLocation(latitude, longitude)] *)
Definition zoomTarget (latitude longitude : number) : CameraTarget :=
  {| center := {| lat := latitude; lng := longitude; altitude := 750%float |};
     range := 2500%float;
     tilt := 50%float;
     heading := 0%float;
     roll := 0%float |}.

Definition zoomToLocation (latitude longitude : number) : M MapStore unit :=
  setCameraTarget (zoomTarget latitude longitude) ;;
  setPreventAutoFrame true.

(** The value of an oracle awaited in place. *)
Definition await {S A} (o : Outcome A) : M S A := fun s => (s, o).

Section MapsGrounding.

(** What the sources do not contain and the service relies on. *)
Record GroundingEnv : Type := {
  (** [process.env.API_KEY]; [None] when the variable is not set. *)
  API_KEY : option string;
  (** [String(x)] as a template literal interpolates a number. *)
  numberToString : number -> string;
  (** [JSON.stringify(value)] *)
  stringifyBody : Json -> string;
  (** [await fetch(endpoint, request)] *)
  fetch : Request -> Outcome Response;
  (** [await response.json()] on the body text: the parsed data, or the
      error the parser rejects with. *)
  parseJson : string -> Outcome Json
}.

Variable genv : GroundingEnv.

(** [!API_KEY] *)
Definition apiKeyMissing : bool :=
  match API_KEY genv with
  | Some k => negb (truthyString k)
  | None => true
  end.

Definition apiKeyText : string :=
  match API_KEY genv with
  | Some k => k
  | None => "undefined"
  end.

Definition rainfallLine (x : option number) : string :=
  match x with
  | Some r =>
      if truthyNumber r
      then "Annual Rainfall: " ++ numberToString genv r ++ "mm"
      else EmptyString
  | None => EmptyString
  end.

Definition temperatureLine (x : option number) : string :=
  match x with
  | Some t =>
      if truthyNumber t
      then "Average Temperature: " ++ numberToString genv t ++ "°C"
      else EmptyString
  | None => EmptyString
  end.

Definition irrigationLine (x : option bool) : string :=
  match x with
  | Some b => "Irrigation Available: " ++ (if b then "Yes" else "No")
  | None => EmptyString
  end.

Definition farmSizeLine (x : option number) : string :=
  match x with
  | Some f =>
      if truthyNumber f
      then "Farm Size: " ++ numberToString genv f ++ " hectares"
      else EmptyString
  | None => EmptyString
  end.

Definition previousCropLine (x : option string) : string :=
  match x with
  | Some c =>
      if truthyString c then "Previous Crop: " ++ c else EmptyString
  | None => EmptyString
  end.

(** The lines of the template literal [agriculturalPrompt], top down. *)
Definition promptLines (params : AgriculturalParameters) : list string :=
  [ ("Location: " ++ numberToString genv (latitude params) ++ ", "
       ++ numberToString genv (longitude params))%string;
    ("Soil Type: " ++ soilTypeName (soilType params))%string;
    ("Climate: " ++ climateName (climate params))%string;
    ("Season: " ++ seasonName (season params))%string;
    rainfallLine (rainfall params);
    temperatureLine (temperature params);
    irrigationLine (irrigationAvailable params);
    farmSizeLine (farmSize params);
    previousCropLine (previousCrop params);
    EmptyString;
    "Please provide detailed crop recommendations for this agricultural location." ].

Definition agriculturalPrompt (params : AgriculturalParameters) : string :=
  String.concat nl (promptLines params).

Definition textParts (t : string) : Json :=
  JArray [JObject [("text", JString t)]].

Definition requestBody (params : AgriculturalParameters) : Json :=
  JObject
    [ ("contents", JArray [JObject [("parts", textParts (agriculturalPrompt params))]]);
      ("system_instruction",
        JObject [("parts", textParts AGRICULTURAL_SYS_INSTRUCTIONS)]);
      ("tools",
        JArray [JObject [("google_maps", JObject [("enable_widget", JBool true)])]]);
      ("generationConfig",
        JObject [("thinkingConfig", JObject [("thinkingBudget", JNumber 0%float)])]);
      ("toolConfig",
        JObject [("retrievalConfig",
          JObject [("latLng",
            JObject [("latitude", JNumber (latitude params));
                     ("longitude", JNumber (longitude params))])])]) ].

Definition recommendationRequest (params : AgriculturalParameters) : Request :=
  {| url := endpoint;
     method := "POST";
     headers := [("Content-Type", "application/json");
                 ("x-goog-api-key", apiKeyText)];
     body := stringifyBody genv (requestBody params) |}.

Definition requestFailedMessage (r : Response) : string :=
  "API request failed with status " ++ natToString (statusCode r) ++ ": "
    ++ responseText r.

Definition fetchAgriculturalRecommendations (params : AgriculturalParameters)
  : M MapStore Json :=
  if apiKeyMissing
  then throw (Error "Missing required environment variable: API_KEY")
  else
    tryCatch
      (response <- await (fetch genv (recommendationRequest params)) ;;
       (if negb (ok response)
        then throw (Error (requestFailedMessage response))
        else ret tt) ;;
       data <- await (parseJson genv (responseText response)) ;;
       zoomToLocation (latitude params) (longitude params) ;;
       ret data)
      (fun error => throw error).

End MapsGrounding.

(* ================================================================= *)
(** ** The agricultural form *)

Section AgriculturalForm.

(** The global [parseFloat]. *)
Variable parseFloat : string -> number.

(** The [(field, value)] pairs [handleInputChange] is called with. *)
Inductive FieldChange : Type :=
| LatitudeIs (v : number)
| LongitudeIs (v : number)
| SoilTypeIs (v : SoilType)
| ClimateIs (v : Climate)
| SeasonIs (v : Season)
| RainfallIs (v : option number)
| TemperatureIs (v : option number)
| IrrigationAvailableIs (v : bool)
| FarmSizeIs (v : option number)
| PreviousCropIs (v : option string).

Definition initialFormData : AgriculturalParameters :=
  {| latitude := 0%float; longitude := 0%float;
     soilType := loamy; climate := temperate; season := spring;
     rainfall := None; temperature := None; irrigationAvailable := None;
     farmSize := None; previousCrop := None |}.

(** [setFormData(prev => ({ ...prev, [field]: value }))] *)
Definition handleInputChange (c : FieldChange) (prev : AgriculturalParameters)
  : AgriculturalParameters :=
  {| latitude := match c with LatitudeIs v => v | _ => latitude prev end;
     longitude := match c with LongitudeIs v => v | _ => longitude prev end;
     soilType := match c with SoilTypeIs v => v | _ => soilType prev end;
     climate := match c with ClimateIs v => v | _ => climate prev end;
     season := match c with SeasonIs v => v | _ => season prev end;
     rainfall := match c with RainfallIs v => v | _ => rainfall prev end;
     temperature := match c with TemperatureIs v => v | _ => temperature prev end;
     irrigationAvailable :=
       match c with
       | IrrigationAvailableIs v => Some v
       | _ => irrigationAvailable prev
       end;
     farmSize := match c with FarmSizeIs v => v | _ => farmSize prev end;
     previousCrop := match c with PreviousCropIs v => v | _ => previousCrop prev end |}.

(** The [onChange] handlers of the inputs; [value] is [e.target.value]. *)
Definition onLatitudeChange (value : string) :=
  handleInputChange (LatitudeIs (orZero (parseFloat value))).

Definition onLongitudeChange (value : string) :=
  handleInputChange (LongitudeIs (orZero (parseFloat value))).

Definition onRainfallChange (value : string) :=
  handleInputChange (RainfallIs (orUndefined (parseFloat value))).

Definition onTemperatureChange (value : string) :=
  handleInputChange (TemperatureIs (orUndefined (parseFloat value))).

Definition onFarmSizeChange (value : string) :=
  handleInputChange (FarmSizeIs (orUndefined (parseFloat value))).

Definition onIrrigationChange (checked : bool) :=
  handleInputChange (IrrigationAvailableIs checked).

Definition onPreviousCropChange (value : string) :=
  handleInputChange
    (PreviousCropIs (if truthyString value then Some value else None)).

End AgriculturalForm.

(* ================================================================= *)
(** ** Conditions on the environment *)

Section Conditions.

Context {World : Type}.
Variable env : Env World.

(** The log store accepts every turn. *)
Definition logAccepts : Prop :=
  forall t l, addTurnFault env t l = None.

(** The client accepts every response batch. *)
Definition clientAccepts : Prop :=
  forall rs c, sendFault env rs c = None.

(** A handler settles: whatever it is given, it returns or throws. *)
Definition settles (impl : ToolImplementation World) : Prop :=
  forall a ctx mw, snd (impl a ctx mw) <> Pending.

(** Every handler the batch reaches settles. *)
Definition handlersSettle (calls : list FunctionCall) : Prop :=
  forall fc impl,
    In fc calls -> toolRegistry env (name fc) = Some impl -> settles impl.

(** [r] answers [fc]: it echoes the id and the name, and when the
    registry has no handler of that name its result is the unknown-tool
    notice. *)
Definition answers (fc : FunctionCall) (r : FunctionResponse) : Prop :=
  responseId r = id fc /\
  responseName r = name fc /\
  (toolRegistry env (name fc) = None ->
   result r = JString (unknownToolMessage (name fc))).

(** What a state shows of the awaiting flag: its value and its writes. *)
Definition awaiting (s : State World) : bool * list bool :=
  (isAwaitingFunctionResponse (logStore s), awaitingHistory (logStore s)).

(** A computation that leaves an observation of the state as it was. *)
Definition preserves {A X} (obs : State World -> X) (m : M (State World) A)
  : Prop :=
  forall s, obs (fst (m s)) = obs s.

End Conditions.

(** [s] occurs in [t]. *)
Definition occursIn (s t : string) : Prop :=
  exists before after, t = (before ++ s ++ after)%string.

(* ================================================================= *)
(** ** Sample environments *)

(** A world that records which tools ran. *)
Definition sampleRegistry (n : string)
  : option (ToolImplementation (list string)) :=
  if String.eqb n "mapsGrounding" then
    Some (fun _ _ mw =>
            ((fst mw, snd mw ++ ["mapsGrounding"]), Returned (JString "3 places found")))
  else if String.eqb n "frameLocations" then
    Some (fun _ _ mw =>
            ((fst mw, snd mw ++ ["frameLocations"]), Thrown (Error "map is not ready")))
  else if String.eqb n "slowLookup" then
    Some (fun _ _ mw => (mw, Pending))
  else None.

Definition sampleEnv : Env (list string) :=
  {| toolRegistry := sampleRegistry;
     stringify := fun _ => "{ }";
     addTurnFault := fun _ _ => None;
     sendFault := fun _ _ => None;
     transport := fun _ => Returned tt |}.

(** An environment in which things go wrong: the log store refuses the
    turn that shows the response batch, the client refuses every batch and
    the transport is down. *)
Definition faultyEnv : Env (list string) :=
  {| toolRegistry := sampleRegistry;
     stringify := fun _ => "{ }";
     addTurnFault := fun t _ =>
       if String.prefix "Function call response" (text t)
       then Some (Error "log store full")
       else None;
     sendFault := fun _ _ => Some (Error "socket closed");
     transport := fun _ => Thrown (Error "network down") |}.

Definition sampleContext : ToolContext :=
  {| map := Some 1; placesLib := Some 2; elevationLib := None; geocoder := Some 3;
     padding := (0%float, 0%float, 0%float, 0%float) |}.

Definition emptyLog : LogStore :=
  {| turns := []; isAwaitingFunctionResponse := false; awaitingHistory := [] |}.

Definition emptyMap : MapStore :=
  {| markers := []; cameraTarget := None; preventAutoFrame := false;
     cameraTargetUpdates := [] |}.

Definition idleClient : LiveClient :=
  {| status := Disconnected; sessions := []; toolResponses := [];
     realtimeTexts := [] |}.

Definition freshState : State (list string) :=
  {| logStore := emptyLog; mapStore := emptyMap; client := idleClient;
     connected := false; world := [] |}.

(** A session in progress: a live connection, a streaming agent turn and a
    marker on the map. *)
Definition busyState : State (list string) :=
  {| logStore :=
       {| turns := [ {| role := user; text := "which crops suit clay?"; isFinal := true |};
                     {| role := agent; text := "For clay soils, cons"; isFinal := false |} ];
          isAwaitingFunctionResponse := false;
          awaitingHistory := [] |};
     mapStore :=
       {| markers := [JString "farm"]; cameraTarget := None;
          preventAutoFrame := false; cameraTargetUpdates := [] |};
     client :=
       {| status := Connected; sessions := [[("responseModalities", JString "AUDIO")]];
          toolResponses := []; realtimeTexts := ["hello"] |};
     connected := true;
     world := [] |}.

Definition sampleCalls : list FunctionCall :=
  [ {| id := "call-1"; name := "mapsGrounding"; args := JObject [] |};
    {| id := "call-2"; name := "frameLocations"; args := JObject [] |};
    {| id := "call-3"; name := "plantTree"; args := JNull |} ].

Definition slowCall : FunctionCall :=
  {| id := "call-4"; name := "slowLookup"; args := JNull |}.

Definition sampleParameters : AgriculturalParameters :=
  {| latitude := 12.5%float; longitude := 77.25%float;
     soilType := clay; climate := tropical; season := summer;
     rainfall := Some 0%float; temperature := Some 25%float;
     irrigationAvailable := Some false; farmSize := None;
     previousCrop := Some "Rice" |}.

(** A number printer that knows the numbers of the samples. *)
Definition sampleNumberToString (x : number) : string :=
  if PrimFloat.eqb x 12.5%float then "12.5"
  else if PrimFloat.eqb x 77.25%float then "77.25"
  else if PrimFloat.eqb x 25%float then "25"
  else if isZero x then "0"
  else "NaN".

Definition sampleReply : Json :=
  JObject [("candidates", JArray [])].

(** An endpoint that answers every request with [status] and [text]. *)
Definition sampleGroundingEnv (status : nat) (text : string) : GroundingEnv :=
  {| API_KEY := Some "secret";
     numberToString := sampleNumberToString;
     stringifyBody := fun _ => "{ }";
     fetch := fun _ => Returned {| statusCode := status; responseText := text |};
     parseJson := fun t =>
       if String.eqb t "{ }" then Returned sampleReply
       else Thrown (Error "Unexpected token") |}.

(** A [parseFloat] for strings of decimal digits: the digits read so far
    as a number, [NaN] when the string starts with anything else. *)
Definition digitValue (c : ascii) : option number :=
  let n := nat_of_ascii c in
  if (48 <=? n)%nat && (n <=? 57)%nat
  then Some (nth (n - 48)
               [0; 1; 2; 3; 4; 5; 6; 7; 8; 9]%float 0%float)
  else None.

Fixpoint readDigits (s : string) (acc : number) : number :=
  match s with
  | EmptyString => acc
  | String c rest =>
      match digitValue c with
      | Some d => readDigits rest (acc * 10 + d)%float
      | None => acc
      end
  end.

Definition sampleParseFloat (s : string) : number :=
  match s with
  | EmptyString => nan
  | String c _ =>
      match digitValue c with
      | Some _ => readDigits s 0%float
      | None => nan
      end
  end.

(* ================================================================= *)
(** ** The events of the live client *)

(** What the client emits, with its payload. *)
Inductive LiveEvent : Type :=
| OpenEvent
| SetupCompleteEvent
| CloseEvent (reason : string)
| InterruptedEvent
| GenerationCompleteEvent
| ToolCallEvent (toolCall : LiveServerToolCall).

(** The name under which an event is emitted. *)
Definition eventName (e : LiveEvent) : string :=
  match e with
  | OpenEvent => "open"
  | SetupCompleteEvent => "setupcomplete"
  | CloseEvent _ => "close"
  | InterruptedEvent => "interrupted"
  | GenerationCompleteEvent => "generationcomplete"
  | ToolCallEvent _ => "toolcall"
  end.

(** The listeners one run of the effect creates. *)
Inductive Handler : Set :=
| OnOpen | OnSetupComplete | OnClose | OnInterrupted | OnGenerationComplete
| OnToolCall.

Definition handlerEqb (a b : Handler) : bool :=
  match a, b with
  | OnOpen, OnOpen | OnSetupComplete, OnSetupComplete | OnClose, OnClose
  | OnInterrupted, OnInterrupted | OnGenerationComplete, OnGenerationComplete
  | OnToolCall, OnToolCall => true
  | _, _ => false
  end.

(** A listener is a closure: one the hook creates, known by its handler
    and the run of the effect that created it, or one of another
    subscriber. *)
Inductive Listener : Set :=
| HookListener (run : nat) (h : Handler)
| OtherListener (n : nat).

Definition listenerEqb (a b : Listener) : bool :=
  match a, b with
  | HookListener r h, HookListener r' h' => Nat.eqb r r' && handlerEqb h h'
  | OtherListener n, OtherListener n' => Nat.eqb n n'
  | _, _ => false
  end.

(** What the emitter holds: the listeners by event name, oldest first. *)
Definition Listeners : Set := list (string * Listener).

(** Modelled from the spec: [client.on(name, listener)] subscribes. *)
Definition on (n : string) (l : Listener) (t : Listeners) : Listeners :=
  t ++ [(n, l)].

(** Modelled from the spec: [client.off(name, listener)] unsubscribes that
    listener from that name. *)
Definition off (n : string) (l : Listener) (t : Listeners) : Listeners :=
  filter (fun r => negb (String.eqb (fst r) n && listenerEqb (snd r) l)) t.

(** The body of the effect, for its run number [run]. *)
Definition subscribe (run : nat) (t : Listeners) : Listeners :=
  on "toolcall" (HookListener run OnToolCall)
    (on "generationcomplete" (HookListener run OnGenerationComplete)
      (on "interrupted" (HookListener run OnInterrupted)
        (on "close" (HookListener run OnClose)
          (on "setupcomplete" (HookListener run OnSetupComplete)
            (on "open" (HookListener run OnOpen) t))))).

(** The cleanup the effect returns. *)
Definition unsubscribe (run : nat) (t : Listeners) : Listeners :=
  off "generationcomplete" (HookListener run OnGenerationComplete)
    (off "toolcall" (HookListener run OnToolCall)
      (off "interrupted" (HookListener run OnInterrupted)
        (off "close" (HookListener run OnClose)
          (off "setupcomplete" (HookListener run OnSetupComplete)
            (off "open" (HookListener run OnOpen) t))))).

(** The effect over the life of the component: run 0 subscribes; each time
    a dependency changes, the cleanup of the last run is called and the
    next run subscribes. *)
Fixpoint afterRuns (last : nat) (t : Listeners) : Listeners :=
  match last with
  | O => subscribe 0 t
  | S before => subscribe last (unsubscribe before (afterRuns before t))
  end.

(** The listeners of one run, in the order the effect subscribes them. *)
Definition hookListeners (run : nat) : Listeners :=
  [ ("open", HookListener run OnOpen);
    ("setupcomplete", HookListener run OnSetupComplete);
    ("close", HookListener run OnClose);
    ("interrupted", HookListener run OnInterrupted);
    ("generationcomplete", HookListener run OnGenerationComplete);
    ("toolcall", HookListener run OnToolCall) ].

(** A listener that is none of the hook's. *)
Definition foreign (r : string * Listener) : Prop :=
  match snd r with
  | HookListener _ _ => False
  | OtherListener _ => True
  end.

Section Events.

Context {World : Type}.
Variable env : Env World.
Variable ctx : ToolContext.

(** The listener the effect subscribes under the name of the event. *)
Definition handleEvent (e : LiveEvent) : M (State World) unit :=
  match e with
  | OpenEvent => onOpen
  | SetupCompleteEvent => onSetupComplete
  | CloseEvent reason => onClose env reason
  | InterruptedEvent => onInterrupted
  | GenerationCompleteEvent => onGenerationComplete
  | ToolCallEvent toolCall => onToolCall env ctx toolCall
  end.

(** Events delivered one after the other; what a listener throws does not
    keep the next event from being delivered. *)
Fixpoint deliver (events : list LiveEvent) (s : State World) : State World :=
  match events with
  | [] => s
  | e :: rest => deliver rest (fst (handleEvent e s))
  end.

End Events.

(* ================================================================= *)
(** ** The generic grounded requests *)

(** [obj?.[key]] on JSON data: the first field of that name. *)
Fixpoint fieldOf (key : string) (fields : list (string * Json)) : option Json :=
  match fields with
  | [] => None
  | (k, v) :: rest => if String.eqb k key then Some v else fieldOf key rest
  end.

Definition getField (key : string) (j : Json) : option Json :=
  match j with
  | JObject fields => fieldOf key fields
  | _ => None
  end.

(** [value[i]] on JSON data: the element of an array, the field named by
    the numeral of an object, the character of a string; [undefined] on any
    other value. *)
Definition getIndex (i : nat) (j : Json) : option Json :=
  match j with
  | JArray items => nth_error items i
  | JObject fields => fieldOf (natToString i) fields
  | JString t =>
      match String.get i t with
      | Some c => Some (JString (String c EmptyString))
      | None => None
      end
  | _ => None
  end.

(** [value?.key] and [value?.[i]]: [undefined] when the value is
    [undefined] or [null], the read otherwise. *)
Definition optionalField (key : string) (v : option Json) : option Json :=
  match v with
  | None | Some JNull => None
  | Some j => getField key j
  end.

Definition optionalIndex (i : nat) (v : option Json) : option Json :=
  match v with
  | None | Some JNull => None
  | Some j => getIndex i j
  end.

(** [ToBoolean] on JSON data. *)
Definition truthyJson (j : Json) : bool :=
  match j with
  | JNull => false
  | JBool b => b
  | JNumber x => truthyNumber x
  | JString t => truthyString t
  | JArray _ | JObject _ => true
  end.

Section GroundedRequests.

Variable genv : GroundingEnv.

(** [systemInstruction || AGRICULTURAL_SYS_INSTRUCTIONS] *)
Definition instructionOr (systemInstruction : option string) : string :=
  match systemInstruction with
  | Some t => if truthyString t then t else AGRICULTURAL_SYS_INSTRUCTIONS
  | None => AGRICULTURAL_SYS_INSTRUCTIONS
  end.

(** The default of the parameter [enableWidget = true]. *)
Definition widgetOr (enableWidget : option bool) : bool :=
  match enableWidget with
  | Some b => b
  | None => true
  end.

(** [if (lat !== undefined && lng !== undefined) request.toolConfig = ...] *)
Definition toolConfigFields (lat lng : option number) : list (string * Json) :=
  match lat, lng with
  | Some la, Some lo =>
      [("toolConfig",
         JObject [("retrievalConfig",
           JObject [("latLng",
             JObject [("latitude", JNumber la); ("longitude", JNumber lo)])])])]
  | _, _ => []
  end.

Definition restRequestBody (prompt : string) (enableWidget : option bool)
  (lat lng : option number) (systemInstruction : option string) : Json :=
  JObject
    ([ ("contents", JArray [JObject [("parts", textParts prompt)]]);
       ("system_instruction",
         JObject [("parts", textParts (instructionOr systemInstruction))]);
       ("tools",
         JArray [JObject [("google_maps",
           JObject [("enable_widget", JBool (widgetOr enableWidget))])]]);
       ("generationConfig",
         JObject [("thinkingConfig", JObject [("thinkingBudget", JNumber 0%float)])]) ]
     ++ toolConfigFields lat lng).

Definition restRequest (prompt : string) (enableWidget : option bool)
  (lat lng : option number) (systemInstruction : option string) : Request :=
  {| url := endpoint;
     method := "POST";
     headers := [("Content-Type", "application/json");
                 ("x-goog-api-key", apiKeyText genv)];
     body := stringifyBody genv
               (restRequestBody prompt enableWidget lat lng systemInstruction) |}.

(** [fetchMapsGroundedResponseREST]; it works on no store, so it runs in
    any state. *)
Definition fetchMapsGroundedResponseREST {S : Type} (prompt : string)
  (enableWidget : option bool) (lat lng : option number)
  (systemInstruction : option string) : M S Json :=
  if apiKeyMissing genv
  then throw (Error "Missing required environment variable: API_KEY")
  else
    tryCatch
      (response <-
         await (fetch genv (restRequest prompt enableWidget lat lng systemInstruction)) ;;
       (if negb (ok response)
        then throw (Error (requestFailedMessage response))
        else ret tt) ;;
       data <- await (parseJson genv (responseText response)) ;;
       ret data)
      (fun error => throw error).

(** [await ai.models.generateContent(request)] of the SDK, which is not
    part of the sources. *)
Variable generateContent : Json -> Outcome Json.

Definition sdkRequest (prompt : string) (lat lng : option number)
  (systemInstruction : option string) : Json :=
  JObject
    ([ ("model", JString "gemini-2.5-flash");
       ("contents", JString prompt);
       ("config",
         JObject [ ("tools", JArray [JObject [("googleMaps", JObject [])]]);
                   ("thinkingConfig", JObject [("thinkingBudget", JNumber 0%float)]);
                   ("systemInstruction", JString (instructionOr systemInstruction)) ]) ]
     ++ toolConfigFields lat lng).

(** [fetchMapsGroundedResponseSDK] *)
Definition fetchMapsGroundedResponseSDK {S : Type} (prompt : string)
  (enableWidget : option bool) (lat lng : option number)
  (systemInstruction : option string) : M S Json :=
  if apiKeyMissing genv
  then throw (Error "Missing required environment variable: API_KEY")
  else
    tryCatch
      (response <- await (generateContent (sdkRequest prompt lat lng systemInstruction)) ;;
       ret response)
      (fun error => throw error).

End GroundedRequests.

(* ================================================================= *)
(** ** Submitting the agricultural form *)

(** The state of the component. *)
Record FormState : Type := {
  formData : AgriculturalParameters;
  showOptional : bool;
  isSubmitting : bool;
  response : option Json;
  error : option string
}.

(** What submitting works on: the component, the map store, and the calls
    of the [onSubmit] callback, oldest first. *)
Record FormWorld : Type := {
  form : FormState;
  camera : MapStore;
  submissions : list AgriculturalParameters
}.

Definition onForm (f : FormState -> FormState) : M FormWorld unit :=
  update (fun w =>
    {| form := f (form w); camera := camera w; submissions := submissions w |}).

Definition setError (e : option string) : M FormWorld unit :=
  onForm (fun f =>
    {| formData := formData f; showOptional := showOptional f;
       isSubmitting := isSubmitting f; response := response f; error := e |}).

Definition setResponse (r : option Json) : M FormWorld unit :=
  onForm (fun f =>
    {| formData := formData f; showOptional := showOptional f;
       isSubmitting := isSubmitting f; response := r; error := error f |}).

Definition setIsSubmitting (b : bool) : M FormWorld unit :=
  onForm (fun f =>
    {| formData := formData f; showOptional := showOptional f;
       isSubmitting := b; response := response f; error := error f |}).

(** A computation on the map store, run on the world of the form. *)
Definition onCamera {A} (m : M MapStore A) : M FormWorld A :=
  fun w =>
    match m (camera w) with
    | (c, o) => ({| form := form w; camera := c; submissions := submissions w |}, o)
    end.

(** [if (onSubmit) onSubmit(formData)]: the callback is optional and, when
    called, may throw. *)
Definition callOnSubmit (onSubmit : option (AgriculturalParameters -> option Exn))
  (data : AgriculturalParameters) : M FormWorld unit :=
  match onSubmit with
  | None => ret tt
  | Some callback =>
      fun w =>
        ({| form := form w; camera := camera w;
            submissions := submissions w ++ [data] |},
         match callback data with
         | Some e => Thrown e
         | None => Returned tt
         end)
  end.

(** [result.candidates?.[0]?.content?.parts?.[0]?.text] for a [result]
    that is not [null]: whatever value the chain ends in, [None] when it
    ends in [undefined]. *)
Definition candidateText (result : Json) : option Json :=
  optionalField "text"
    (optionalIndex 0
       (optionalField "parts"
          (optionalField "content"
             (optionalIndex 0 (getField "candidates" result))))).

(** [... || 'No recommendations available'] *)
Definition responseTextOf (result : Json) : Json :=
  match candidateText result with
  | Some t => if truthyJson t then t else JString "No recommendations available"
  | None => JString "No recommendations available"
  end.

(** The first read, [result.candidates], is not optional: on [null] it
    throws a [TypeError]. *)
Definition readResponseText (result : Json) : M FormWorld Json :=
  match result with
  | JNull => throw (Error "TypeError: Cannot read properties of null")
  | _ => ret (responseTextOf result)
  end.

(** The three checks at the head of [handleSubmit]: the message of the
    first that fails. *)
Definition validationError (data : AgriculturalParameters) : option string :=
  if negb (truthyNumber (latitude data)) || negb (truthyNumber (longitude data))
  then Some "Please enter valid latitude and longitude coordinates"
  else if PrimFloat.ltb (latitude data) (-90)%float
          || PrimFloat.ltb 90%float (latitude data)
  then Some "Latitude must be between -90 and 90 degrees"
  else if PrimFloat.ltb (longitude data) (-180)%float
          || PrimFloat.ltb 180%float (longitude data)
  then Some "Longitude must be between -180 and 180 degrees"
  else None.

Section Submit.

Variable genv : GroundingEnv.
Variable onSubmit : option (AgriculturalParameters -> option Exn).

Definition handleSubmit : M FormWorld unit :=
  fun w =>
    let data := formData (form w) in
    match validationError data with
    | Some message => setError (Some message) w
    | None =>
        (setIsSubmitting true ;;
         setError None ;;
         setResponse None ;;
         tryFinally
           (tryCatch
              (result <- onCamera (fetchAgriculturalRecommendations genv data) ;;
               responseText <- readResponseText result ;;
               setResponse (Some responseText) ;;
               callOnSubmit onSubmit data)
              (fun _ =>
                 setError (Some "Error getting recommendations. Please try again.")))
           (setIsSubmitting false)) w
    end.

End Submit.

(** The [onChange] events of the inputs of the form. *)
Inductive FormEvent : Type :=
| LatitudeInput (value : string)
| LongitudeInput (value : string)
| SoilTypeSelect (value : SoilType)
| ClimateSelect (value : Climate)
| SeasonSelect (value : Season)
| RainfallInput (value : string)
| TemperatureInput (value : string)
| FarmSizeInput (value : string)
| IrrigationCheck (checked : bool)
| PreviousCropInput (value : string).

Section FormEvents.

Variable parseFloat : string -> number.

Definition onFormEvent (e : FormEvent) : AgriculturalParameters -> AgriculturalParameters :=
  match e with
  | LatitudeInput v => onLatitudeChange parseFloat v
  | LongitudeInput v => onLongitudeChange parseFloat v
  | SoilTypeSelect v => handleInputChange (SoilTypeIs v)
  | ClimateSelect v => handleInputChange (ClimateIs v)
  | SeasonSelect v => handleInputChange (SeasonIs v)
  | RainfallInput v => onRainfallChange parseFloat v
  | TemperatureInput v => onTemperatureChange parseFloat v
  | FarmSizeInput v => onFarmSizeChange parseFloat v
  | IrrigationCheck b => onIrrigationChange b
  | PreviousCropInput v => onPreviousCropChange v
  end.

(** The form data after a sequence of changes. *)
Definition afterChanges (events : list FormEvent) (data : AgriculturalParameters)
  : AgriculturalParameters :=
  fold_left (fun d e => onFormEvent e d) events data.

End FormEvents.

(** The change of the irrigation checkbox among the events. *)
Definition isIrrigationCheck (e : FormEvent) : bool :=
  match e with
  | IrrigationCheck _ => true
  | _ => false
  end.

(** An optional number of the form: absent, or a number that is neither
    zero nor [NaN]. *)
Definition absentOrTruthy (x : option number) : Prop :=
  match x with
  | Some v => truthyNumber v = true
  | None => True
  end.

(** What the change handlers keep true of the form data. *)
Definition formDataTidy (data : AgriculturalParameters) : Prop :=
  isNaN (latitude data) = false /\
  isNaN (longitude data) = false /\
  absentOrTruthy (rainfall data) /\
  absentOrTruthy (temperature data) /\
  absentOrTruthy (farmSize data) /\
  match previousCrop data with
  | Some c => truthyString c = true
  | None => True
  end.

(* ================================================================= *)
(** ** The declaration of the agricultural tool *)

Inductive SchemaType : Set := NumberType | StringType | BooleanType.

Record PropertySchema : Type := {
  propertyType : SchemaType;
  enumValues : option (list string);
  propertyDescription : string
}.

Record ToolDeclaration : Type := {
  toolName : string;
  toolDescription : string;
  properties : list (string * PropertySchema);
  required : list string;
  isEnabled : bool
}.

Definition plain (t : SchemaType) (d : string) : PropertySchema :=
  {| propertyType := t; enumValues := None; propertyDescription := d |}.

Definition oneOf (values : list string) (d : string) : PropertySchema :=
  {| propertyType := StringType; enumValues := Some values; propertyDescription := d |}.

(** [agriculturalTools[0]] *)
Definition agriculturalRecommendationTool : ToolDeclaration :=
  {| toolName := "agriculturalRecommendation";
     toolDescription :=
       "Provides crop recommendations based on location and agricultural parameters";
     properties :=
       [ ("latitude", plain NumberType "Farm latitude coordinate");
         ("longitude", plain NumberType "Farm longitude coordinate");
         ("soilType",
           oneOf ["clay"; "sandy"; "loamy"; "silt"; "peat"] "Type of soil on the farm");
         ("climate",
           oneOf ["tropical"; "arid"; "temperate"; "continental"; "polar"]
             "Climate zone of the farm location");
         ("season",
           oneOf ["spring"; "summer"; "fall"; "winter"]
             "Current or planned planting season");
         ("rainfall", plain NumberType "Annual rainfall in mm (optional)");
         ("temperature", plain NumberType "Average temperature in Â°C (optional)");
         ("irrigationAvailable",
           plain BooleanType "Whether irrigation is available (optional)");
         ("farmSize", plain NumberType "Farm size in hectares (optional)");
         ("previousCrop", plain StringType "Previously grown crop (optional)") ];
     required := ["latitude"; "longitude"; "soilType"; "climate"; "season"];
     isEnabled := true |}.

Definition agriculturalTools : list ToolDeclaration :=
  [agriculturalRecommendationTool].

(** The values the schema allows for a property: [None] when it has no
    [enum]. *)
Fixpoint schemaOf (key : string) (ps : list (string * PropertySchema))
  : option PropertySchema :=
  match ps with
  | [] => None
  | (k, p) :: rest => if String.eqb k key then Some p else schemaOf key rest
  end.

Definition allowedValues (t : ToolDeclaration) (key : string) : option (list string) :=
  match schemaOf key (properties t) with
  | Some p => enumValues p
  | None => None
  end.

(* ================================================================= *)
(** ** Further conditions and samples *)

(** How the transcript may grow: the turns there were are kept, in order,
    with their role and text, and a final turn stays final; the turns added
    are final. *)
Definition keptAs (old new : ConversationTurn) : Prop :=
  role new = role old /\ text new = text old /\
  (isFinal old = true -> isFinal new = true).

Definition grows (old new : list ConversationTurn) : Prop :=
  exists kept added,
    new = kept ++ added /\
    Forall2 keptAs old kept /\
    Forall (fun t => isFinal t = true) added.

(** Every handler of the registry settles. *)
Definition registrySettles {World : Type} (env : Env World) : Prop :=
  forall n impl, toolRegistry env n = Some impl -> settles impl.

(** A final turn of the role [system]. *)
Definition systemFinal (t : ConversationTurn) : Prop :=
  role t = system /\ isFinal t = true.

(** A computation that only appends final system turns to the transcript. *)
Definition appendsSystemTurns {World A} (m : M (State World) A) : Prop :=
  forall s,
    exists added,
      turns (logStore (fst (m s))) = turns (logStore s) ++ added /\
      Forall systemFinal added.

(** A computation that never stays pending. *)
Definition neverPending {World A} (m : M (State World) A) : Prop :=
  forall s, snd (m s) <> Pending.

(** The connectivity a sequence of events leads to. *)
Fixpoint connectedAfter (events : list LiveEvent) (before : bool) : bool :=
  match events with
  | [] => before
  | OpenEvent :: rest => connectedAfter rest true
  | CloseEvent _ :: rest => connectedAfter rest false
  | _ :: rest => connectedAfter rest before
  end.

Definition sampleForm : FormWorld :=
  {| form := {| formData := sampleParameters; showOptional := true;
                isSubmitting := false; response := Some (JString "Plant rice.");
                error := None |};
     camera := emptyMap;
     submissions := [] |}.

(** A farm on the equator. *)
Definition equatorParameters : AgriculturalParameters :=
  {| latitude := 0%float; longitude := 36.75%float;
     soilType := loamy; climate := tropical; season := spring;
     rainfall := None; temperature := None; irrigationAvailable := None;
     farmSize := None; previousCrop := None |}.

Definition equatorForm : FormWorld :=
  {| form := {| formData := equatorParameters; showOptional := false;
                isSubmitting := false; response := Some (JString "Plant rice.");
                error := None |};
     camera := emptyMap;
     submissions := [] |}.

(** An environment without credential. *)
Definition keylessGroundingEnv : GroundingEnv :=
  {| API_KEY := Some EmptyString;
     numberToString := sampleNumberToString;
     stringifyBody := fun _ => "{ }";
     fetch := fun _ => Returned {| statusCode := 200; responseText := "{ }" |};
     parseJson := fun _ => Returned sampleReply |}.

(** The parameters with [irrigationAvailable] set, also to [undefined]. *)
Definition withIrrigation (o : option bool) (p : AgriculturalParameters)
  : AgriculturalParameters :=
  {| latitude := latitude p; longitude := longitude p;
     soilType := soilType p; climate := climate p; season := season p;
     rainfall := rainfall p; temperature := temperature p;
     irrigationAvailable := o;
     farmSize := farmSize p; previousCrop := previousCrop p |}.


(** Arrays and objects are the JSON values that are objects. *)
Definition isObject (j : Json) : bool :=
  match j with
  | JArray _ | JObject _ => true
  | _ => false
  end.

(** What a property read finds on [Object.prototype], called the way
    [onToolCall] calls a handler, as a plain function of
    [(args, toolContext)] with no receiver: [toString] answers for the
    missing receiver, [constructor] gives back its first argument as an
    object, [isPrototypeOf] answers [false] to what is no object; every
    other member throws a [TypeError], [__proto__] because its value is no
    function. *)
Definition objectPrototypeMember {World : Type} (n : string)
  : option (ToolImplementation World) :=
  if String.eqb n "toString" then
    Some (fun _ _ mw => (mw, Returned (JString "[object Undefined]")))
  else if String.eqb n "constructor" then
    Some (fun a _ mw =>
            (mw, Returned (match a with JNull => JObject [] | _ => a end)))
  else if String.eqb n "isPrototypeOf" then
    Some (fun a _ mw =>
            (mw, if isObject a then Thrown (Error "TypeError")
                 else Returned (JBool false)))
  else if existsb (String.eqb n)
            [ "valueOf"; "hasOwnProperty"; "propertyIsEnumerable"; "toLocaleString";
              "__defineGetter__"; "__defineSetter__"; "__lookupGetter__";
              "__lookupSetter__"; "__proto__" ]
  then Some (fun _ _ mw => (mw, Thrown (Error "TypeError")))
  else None.

(** Modelled from the spec: the tool registry, a static mapping from tool
    name to handler, as the plain object with these entries.  The read
    [toolRegistry[name]] finds the entry of that name and, where there is
    none, what the object inherits. *)
Definition readProperty {World : Type}
  (entries : string -> option (ToolImplementation World)) (n : string)
  : option (ToolImplementation World) :=
  match entries n with
  | Some impl => Some impl
  | None => objectPrototypeMember n
  end.

(** The sample environment with its registry read as a plain object. *)
Definition plainObjectEnv : Env (list string) :=
  {| toolRegistry := readProperty sampleRegistry;
     stringify := stringify sampleEnv;
     addTurnFault := addTurnFault sampleEnv;
     sendFault := sendFault sampleEnv;
     transport := transport sampleEnv |}.



(** An environment whose log store refuses every turn. *)
Definition refusingEnv : Env (list string) :=
  {| toolRegistry := sampleRegistry;
     stringify := fun _ => "{ }";
     addTurnFault := fun _ _ => Some (Error "log store full");
     sendFault := fun _ _ => None;
     transport := fun _ => Returned tt |}.

(** An environment in which every handler settles, while the log store
    and the client go wrong as in [faultyEnv]. *)
Definition settlingEnv : Env (list string) :=
  {| toolRegistry := fun n =>
       if String.eqb n "slowLookup" then None else sampleRegistry n;
     stringify := fun _ => "{ }";
     addTurnFault := addTurnFault faultyEnv;
     sendFault := sendFault faultyEnv;
     transport := transport faultyEnv |}.

(** The listeners of two other subscribers. *)
Definition otherListeners : Listeners :=
  [ ("open", OtherListener 7); ("audio", OtherListener 8) ].

Definition sampleEvents : list LiveEvent :=
  [ OpenEvent; SetupCompleteEvent;
    ToolCallEvent {| functionCalls := sampleCalls |};
    InterruptedEvent; GenerationCompleteEvent; CloseEvent "peer closed" ].

(* ================================================================= *)
(** * Properties *)

(** ** What the tool-call loop leaves alone *)

Section Frame.

Context {World X : Type}.
Variable env : Env World.
Variable ctx : ToolContext.

(** An observation that depends neither on the transcript nor on what the
    tools work on. *)
Variable obs : State World -> X.
Hypothesis obs_turn : forall t s, obs (onLog (pushTurn t) s) = obs s.
Hypothesis obs_tool :
  forall s m w,
    obs {| logStore := logStore s; mapStore := m; client := client s;
           connected := connected s; world := w |} = obs s.

Lemma preserves_ret A (a : A) : preserves obs (ret a).
Proof. intro s. reflexivity. Qed.

Lemma preserves_bind A B (m : M (State World) A) (k : A -> M (State World) B) :
  preserves obs m -> (forall a, preserves obs (k a)) -> preserves obs (bind m k).
Proof.
  intros Hm Hk s. unfold bind. specialize (Hm s).
  destruct (m s) as [s' [a | e | ]]; simpl in *; try assumption.
  rewrite (Hk a s'). assumption.
Qed.

Lemma preserves_tryCatch A (m : M (State World) A) (h : Exn -> M (State World) A) :
  preserves obs m -> (forall e, preserves obs (h e)) -> preserves obs (tryCatch m h).
Proof.
  intros Hm Hh s. unfold tryCatch. specialize (Hm s).
  destruct (m s) as [s' [a | e | ]]; simpl in *; try assumption.
  rewrite (Hh e s'). assumption.
Qed.

Lemma preserves_addTurn t : preserves obs (addTurn env t).
Proof.
  intro s. unfold addTurn.
  destruct (addTurnFault env t (logStore s)); simpl; [reflexivity | apply obs_turn].
Qed.

Lemma preserves_callTool impl a : preserves obs (callTool impl a ctx).
Proof.
  intro s. unfold callTool.
  destruct (impl a ctx (mapStore s, world s)) as [[m w] o]. simpl. apply obs_tool.
Qed.

Lemma preserves_handleFunctionCall fc acc :
  preserves obs (handleFunctionCall env ctx fc acc).
Proof.
  unfold handleFunctionCall.
  apply preserves_bind; [apply preserves_addTurn | intros _].
  apply preserves_tryCatch.
  - apply preserves_bind; [ | intro; apply preserves_ret].
    destruct (toolRegistry env (name fc)).
    + apply preserves_callTool.
    + apply preserves_ret.
  - intros _. apply preserves_bind; [apply preserves_addTurn | intros _].
    apply preserves_ret.
Qed.

Lemma preserves_handleFunctionCalls calls :
  forall acc, preserves obs (handleFunctionCalls env ctx calls acc).
Proof.
  induction calls as [ | fc rest IH]; intro acc; simpl.
  - apply preserves_ret.
  - apply preserves_bind; [apply preserves_handleFunctionCall | intro; apply IH].
Qed.

End Frame.

Section LiveApiFacts.

Context {World : Type}.
Variable env : Env World.
Variable ctx : ToolContext.

Lemma awaiting_turn t (s : State World) : awaiting (onLog (pushTurn t) s) = awaiting s.
Proof. reflexivity. Qed.

Lemma awaiting_tool (s : State World) (m : MapStore) (w : World) :
  awaiting {| logStore := logStore s; mapStore := m; client := client s;
              connected := connected s; world := w |} = awaiting s.
Proof. reflexivity. Qed.

Lemma client_turn t (s : State World) : client (onLog (pushTurn t) s) = client s.
Proof. reflexivity. Qed.

Lemma client_tool (s : State World) (m : MapStore) (w : World) :
  client {| logStore := logStore s; mapStore := m; client := client s;
            connected := connected s; world := w |} = client s.
Proof. reflexivity. Qed.

Lemma addTurn_run t s :
  logAccepts env -> addTurn env t s = (onLog (pushTurn t) s, Returned tt).
Proof. intro H. unfold addTurn. rewrite (H t (logStore s)). reflexivity. Qed.

(** The body of [onToolCall] never writes the awaiting flag. *)
Lemma toolCallBody_awaiting toolCall : preserves awaiting (toolCallBody env ctx toolCall).
Proof.
  unfold toolCallBody.
  apply preserves_bind.
  - apply preserves_handleFunctionCalls; [apply awaiting_turn | apply awaiting_tool].
  - intro rs. apply preserves_bind.
    + destruct (Nat.ltb 0 (List.length rs)).
      * apply preserves_addTurn. apply awaiting_turn.
      * apply preserves_ret.
    + intros _ s. unfold sendToolResponse.
      destruct (sendFault env rs (client s)); reflexivity.
Qed.

(** One call, when the log accepts turns and the handler settles: the
    array grows by one response, which answers the call. *)
Lemma handleFunctionCall_answers fc acc s :
  logAccepts env ->
  (forall impl, toolRegistry env (name fc) = Some impl -> settles impl) ->
  exists s' r,
    handleFunctionCall env ctx fc acc s = (s', Returned (acc ++ [r])) /\
    answers env fc r.
Proof.
  intros Hlog Hset. unfold handleFunctionCall, bind at 1.
  rewrite (addTurn_run _ _ Hlog). unfold tryCatch, bind at 1.
  destruct (toolRegistry env (name fc)) as [impl | ] eqn:Hreg.
  - unfold callTool. simpl.
    pose proof (Hset impl eq_refl (args fc) ctx
                  (mapStore s, world s)) as Hnp.
    destruct (impl (args fc) ctx (mapStore s, world s)) as [[m w] [r | e | ]];
      simpl in *.
    + eexists; eexists; split; [reflexivity | ].
      repeat split; simpl; auto. intro Hn; rewrite Hn in Hreg; discriminate.
    + unfold bind. rewrite (addTurn_run _ _ Hlog).
      eexists; eexists; split; [reflexivity | ].
      repeat split; simpl; auto. intro Hn; rewrite Hn in Hreg; discriminate.
    + contradiction Hnp; reflexivity.
  - simpl. eexists; eexists; split; [reflexivity | ].
    repeat split; simpl; auto.
Qed.

(** The whole loop: as many responses as calls, pairwise answering. *)
Lemma handleFunctionCalls_answers calls :
  logAccepts env -> handlersSettle env calls ->
  forall acc s,
  exists s' rs,
    handleFunctionCalls env ctx calls acc s = (s', Returned (acc ++ rs)) /\
    Forall2 (answers env) calls rs.
Proof.
  intros Hlog. induction calls as [ | fc rest IH]; intros Hset acc s; simpl.
  - exists s, []. rewrite app_nil_r. split; [reflexivity | constructor].
  - destruct (handleFunctionCall_answers fc acc s Hlog) as (s1 & r & Hrun & Hans).
    { intros impl Himpl. apply (Hset fc impl); [left; reflexivity | assumption]. }
    destruct (IH (fun fc' impl Hin => Hset fc' impl (or_intror Hin)) (acc ++ [r]) s1)
      as (s2 & rs & Hrest & Hall).
    exists s2, (r :: rs). unfold bind. rewrite Hrun, Hrest.
    rewrite <- app_assoc. split; [reflexivity | constructor; assumption].
Qed.

Lemma answers_ids calls rs :
  Forall2 (answers env) calls rs ->
  List.map (fun r => (responseId r, responseName r)) rs
    = List.map (fun fc => (id fc, name fc)) calls.
Proof.
  induction 1 as [ | fc r calls rs (Hid & Hname & _) _ IH]; simpl.
  - reflexivity.
  - rewrite Hid, Hname, IH. reflexivity.
Qed.

(** What [onToolCall] does when the log accepts turns and the handlers
    settle: the loop returns a batch answering the calls, that batch is
    handed to the client in one call, and nothing is thrown unless the
    client throws. *)
Lemma onToolCall_run calls s :
  logAccepts env -> handlersSettle env calls ->
  exists rs,
    Forall2 (answers env) calls rs /\
    client (fst (onToolCall env ctx {| functionCalls := calls |} s))
      = recordToolResponse rs (client s) /\
    (clientAccepts env ->
     snd (onToolCall env ctx {| functionCalls := calls |} s) = Returned tt).
Proof.
  intros Hlog Hset.
  set (s0 := onLog (writeAwaiting true) s).
  destruct (handleFunctionCalls_answers calls Hlog Hset [] s0)
    as (s1 & rs & Hrun & Hall).
  simpl in Hrun.
  assert (Hc1 : client s1 = client s).
  { pose proof (preserves_handleFunctionCalls env ctx client client_turn client_tool
                  calls [] s0) as Hp.
    rewrite Hrun in Hp. exact Hp. }
  exists rs. split; [exact Hall | ].
  assert (Hlogged : exists s1',
    (if Nat.ltb 0 (List.length rs)
     then addTurn env (systemTurn (responseMessage env rs))
     else ret tt) s1 = (s1', Returned tt) /\ client s1' = client s1).
  { destruct (Nat.ltb 0 (List.length rs)).
    - rewrite (addTurn_run _ _ Hlog). eexists; split; reflexivity.
    - eexists; split; reflexivity. }
  destruct Hlogged as (s1' & Hlogged & Hc1').
  assert (Heq : onToolCall env ctx {| functionCalls := calls |} s
                = tryFinally (sendToolResponse env rs)
                    (setIsAwaitingFunctionResponse false) s1').
  { unfold onToolCall, setIsAwaitingFunctionResponse at 1, update at 1, bind at 1.
    fold s0. unfold tryFinally, toolCallBody, bind at 1. simpl functionCalls.
    rewrite Hrun. unfold bind at 1. rewrite Hlogged. reflexivity. }
  rewrite Heq. unfold tryFinally, sendToolResponse.
  split.
  - destruct (sendFault env rs (client s1')); simpl; rewrite Hc1', Hc1; reflexivity.
  - intro Hsend. rewrite (Hsend rs (client s1')). reflexivity.
Qed.

End LiveApiFacts.

(** ** The tool-call protocol *)

Section ToolCallProtocol.

Context {World : Type}.
Variable env : Env World.
Variable ctx : ToolContext.

(** C1.  A batch of N function calls, whatever number of its handlers
    throw: [onToolCall] calls [sendToolResponse] once, with N responses;
    the [(id, name)] pairs of the responses are those of the calls, in
    the order of the calls, so every id is echoed as often as it occurs
    in the batch.  (The log store accepts turns and handlers settle.) *)
Theorem onToolCall_answers_every_call (calls : list FunctionCall) (s : State World) :
  logAccepts env -> handlersSettle env calls ->
  exists rs,
    toolResponses (client (fst (onToolCall env ctx {| functionCalls := calls |} s)))
      = toolResponses (client s) ++ [rs] /\
    List.length rs = List.length calls /\
    List.map (fun r => (responseId r, responseName r)) rs
      = List.map (fun fc => (id fc, name fc)) calls /\
    (forall i, count_occ string_dec (List.map responseId rs) i
               = count_occ string_dec (List.map id calls) i).
Proof.
  intros Hlog Hset.
  destruct (onToolCall_run env ctx calls s Hlog Hset) as (rs & Hall & Hclient & _).
  exists rs. rewrite Hclient. split; [reflexivity | ].
  pose proof (answers_ids env calls rs Hall) as Hpairs.
  split; [symmetry; eapply Forall2_length; eassumption | ].
  split; [exact Hpairs | ].
  intro i. f_equal.
  apply (f_equal (List.map fst)) in Hpairs.
  rewrite !map_map in Hpairs. exact Hpairs.
Qed.

(** C2.  A handler found in the registry throws: the loop appends a
    system turn with the failure notice, which names the tool, pushes a
    response with the call's id and that same notice as result, and goes
    on with the remaining calls of the batch, each of which is answered. *)
Theorem failing_tool_is_reported_and_batch_continues
    (fc : FunctionCall) (rest : list FunctionCall) (acc : list FunctionResponse)
    (s : State World) (impl : ToolImplementation World)
    (m : MapStore) (w : World) (e : Exn) :
  logAccepts env ->
  toolRegistry env (name fc) = Some impl ->
  impl (args fc) ctx (mapStore s, world s) = ((m, w), Thrown e) ->
  let notice := errorMessage (name fc) in
  let failed := {| responseId := id fc; responseName := name fc;
                   result := JString notice |} in
  let logged :=
    {| logStore :=
         {| turns := turns (logStore s)
                       ++ [systemTurn (triggerMessage env fc)]
                       ++ [{| role := system; text := notice; isFinal := true |}];
            isAwaitingFunctionResponse := isAwaitingFunctionResponse (logStore s);
            awaitingHistory := awaitingHistory (logStore s) |};
       mapStore := m;
       client := client s;
       connected := connected s;
       world := w |} in
  occursIn (name fc) notice /\
  handleFunctionCalls env ctx (fc :: rest) acc s
    = handleFunctionCalls env ctx rest (acc ++ [failed]) logged /\
  (handlersSettle env rest ->
   exists s' rs,
     handleFunctionCalls env ctx (fc :: rest) acc s
       = (s', Returned (acc ++ failed :: rs)) /\
     Forall2 (answers env) rest rs).
Proof.
  intros Hlog Hreg Himpl notice failed logged.
  assert (Hstep : handleFunctionCalls env ctx (fc :: rest) acc s
                  = handleFunctionCalls env ctx rest (acc ++ [failed]) logged).
  { simpl. unfold bind at 1, handleFunctionCall, bind at 1.
    rewrite (addTurn_run _ _ _ Hlog). unfold tryCatch, bind at 1.
    rewrite Hreg. unfold callTool. simpl. rewrite Himpl. unfold bind at 1.
    rewrite (addTurn_run _ _ _ Hlog). unfold ret, logged, onLog, pushTurn. simpl.
    rewrite <- app_assoc. reflexivity. }
  split; [ | split].
  - exists "Error executing tool ", ".". reflexivity.
  - exact Hstep.
  - intro Hset.
    destruct (handleFunctionCalls_answers env ctx rest Hlog Hset (acc ++ [failed]) logged)
      as (s' & rs & Hrun & Hall).
    exists s', rs. rewrite Hstep, Hrun, <- app_assoc. split; [reflexivity | exact Hall].
Qed.


(** C4.  Whatever the handlers, the log store and the client do
    (return, throw, or in the case of a handler never settle):
    [onToolCall] first writes [true] to the awaiting flag; the flag is
    still [true] when the processing of the batch stops; when that
    processing ends, by returning or by throwing, the one further write
    is [false].  While a handler stays pending the flag stays [true]. *)
Theorem onToolCall_awaiting_flag (toolCall : LiveServerToolCall) (s : State World) :
  let started := fst (setIsAwaitingFunctionResponse true s) in
  awaiting started = (true, awaitingHistory (logStore s) ++ [true]) /\
  awaiting (fst (toolCallBody env ctx toolCall started)) = awaiting started /\
  match onToolCall env ctx toolCall s with
  | (s', Pending) => awaiting s' = (true, awaitingHistory (logStore s) ++ [true])
  | (s', _) => awaiting s' = (false, awaitingHistory (logStore s) ++ [true; false])
  end.
Proof.
  intro started.
  pose proof (toolCallBody_awaiting env ctx toolCall started) as Hbody.
  split; [reflexivity | ]. split; [exact Hbody | ].
  change (onToolCall env ctx toolCall s)
    with (tryFinally (toolCallBody env ctx toolCall)
            (setIsAwaitingFunctionResponse false) started).
  unfold tryFinally.
  destruct (toolCallBody env ctx toolCall started) as [s1 o].
  simpl in Hbody. unfold awaiting in *. simpl in *.
  injection Hbody as Hflag Hhist.
  destruct o; simpl; rewrite ?Hflag, Hhist, <- ?app_assoc; reflexivity.
Qed.

End ToolCallProtocol.

(** ** The session lifecycle *)

Lemma lastTurnOf_snoc (earlier : list ConversationTurn) (last : ConversationTurn) :
  lastTurnOf (earlier ++ [last]) = Some last.
Proof.
  unfold lastTurnOf. rewrite length_app. simpl.
  rewrite Nat.add_sub, nth_error_app2, Nat.sub_diag; [reflexivity | apply Nat.le_refl].
Qed.

Lemma mergeLast_snoc (u : TurnUpdate) (earlier : list ConversationTurn)
    (last : ConversationTurn) :
  mergeLast u (earlier ++ [last]) = earlier ++ [mergeTurn u last].
Proof.
  induction earlier as [ | t rest IH]; [reflexivity | ].
  simpl. rewrite IH. destruct (rest ++ [last]) eqn:E; [ | reflexivity].
  destruct rest; discriminate.
Qed.

Lemma mergeLast_length (u : TurnUpdate) (ts : list ConversationTurn) :
  List.length (mergeLast u ts) = List.length ts.
Proof.
  induction ts as [ | t rest IH]; [reflexivity | ].
  destruct rest; [reflexivity | ]. simpl in *. rewrite IH. reflexivity.
Qed.

Section Lifecycle.

Context {World : Type}.
Variable env : Env World.

(** C5, as the code has it.  [connect] throws before touching anything
    only when the configuration is absent ([null] or [undefined]); every
    configuration object, the empty one included, passes the guard.  Then
    the client is asked to connect from a state in which the transcript
    and the markers are empty and the client has no connection left.
    Called twice in succession, with the second connection established,
    [connect] leaves exactly one live connection, the second, and an
    empty transcript and marker set. *)
Theorem connect_resets_then_connects :
  (forall s : State World,
     connect env None s = (s, Thrown (Error "config has not been set"))) /\
  (forall config s,
     exists s0,
       connect env (Some config) s = clientConnect env config s0 /\
       turns (logStore s0) = [] /\
       markers (mapStore s0) = [] /\
       sessions (client s0) = [] /\
       status (client s0) = Disconnected) /\
  (forall first second s,
     transport env second = Returned tt ->
     let s1 := fst (connect env (Some first) s) in
     let s2 := fst (connect env (Some second) s1) in
     snd (connect env (Some second) s1) = Returned tt /\
     sessions (client s2) = [second] /\
     status (client s2) = Connected /\
     turns (logStore s2) = [] /\
     markers (mapStore s2) = []).
Proof.
  split; [reflexivity | split].
  - intros config s.
    exists (onClient disconnectClient (onMap clearMarkersOf (onLog clearTurnsOf s))).
    repeat split; reflexivity.
  - intros first second s Hup s1 s2. subst s2.
    unfold connect, clearTurns, clearMarkers, clientDisconnect, update, bind, clientConnect.
    rewrite Hup. repeat split; reflexivity.
Qed.

(** C6, as the code has it.  On [close] the session is marked
    disconnected and one final turn is appended whose text explains that
    the session ended and ends with the reason of the close event; the
    role of that turn is [agent].  (The log store accepts turns.) *)
Theorem onClose_marks_disconnected_and_logs (reason : string) (s : State World) :
  logAccepts env ->
  exists s',
    onClose env reason s = (s', Returned tt) /\
    connected s' = false /\
    turns (logStore s')
      = turns (logStore s)
          ++ [{| role := agent;
                 text := "Session ended. Press 'Play' to start a new session. "
                           ++ reason;
                 isFinal := true |}] /\
    occursIn reason (closeText reason).
Proof.
  intro Hlog. unfold onClose, setConnected, update, bind.
  rewrite (addTurn_run _ _ _ Hlog).
  eexists. split; [reflexivity | ]. split; [reflexivity | ]. split; [reflexivity | ].
  exists "Session ended. Press 'Play' to start a new session. ", EmptyString.
  unfold closeText. clear. induction reason as [ | c r IH]; [reflexivity | ].
  simpl in *. injection IH as IH. rewrite <- IH. reflexivity.
Qed.

(** C7.  On [interrupted]: a last turn that is not final becomes final,
    its role and text kept, and no turn is added; with an empty
    transcript, or a last turn that is final already, nothing changes. *)
Theorem onInterrupted_finalises_last_turn (s : State World) :
  snd (onInterrupted s) = Returned tt /\
  List.length (turns (logStore (fst (onInterrupted s))))
    = List.length (turns (logStore s)) /\
  (forall earlier last,
     turns (logStore s) = earlier ++ [last] -> isFinal last = false ->
     turns (logStore (fst (onInterrupted s)))
       = earlier ++ [{| role := role last; text := text last; isFinal := true |}]) /\
  (forall earlier last,
     turns (logStore s) = earlier ++ [last] -> isFinal last = true ->
     onInterrupted s = (s, Returned tt)) /\
  (turns (logStore s) = [] -> onInterrupted s = (s, Returned tt)).
Proof.
  unfold onInterrupted.
  split; [ | split; [ | split; [ | split]]].
  - destruct (lastTurnOf (turns (logStore s))) as [t | ]; [ | reflexivity].
    destruct (isFinal t); reflexivity.
  - destruct (lastTurnOf (turns (logStore s))) as [t | ]; [ | reflexivity].
    destruct (isFinal t); simpl; [reflexivity | apply mergeLast_length].
  - intros earlier last Hturns Hopen.
    rewrite Hturns, lastTurnOf_snoc, Hopen. simpl.
    rewrite Hturns, mergeLast_snoc. reflexivity.
  - intros earlier last Hturns Hdone.
    rewrite Hturns, lastTurnOf_snoc, Hdone. reflexivity.
  - intro Hturns. rewrite Hturns. reflexivity.
Qed.

End Lifecycle.

(** ** The grounded recommendation service and the camera *)

Lemma zero_is_falsy (x : number) : isZero x = true -> truthyNumber x = false.
Proof. intro H. unfold truthyNumber. rewrite H. reflexivity. Qed.

Lemma string_append_assoc (a b c : string) : ((a ++ b) ++ c = a ++ b ++ c)%string.
Proof. induction a as [ | x a IH]; simpl; [reflexivity | rewrite IH; reflexivity]. Qed.

(** A list of lines joined by a separator, cut at one of its lines. *)
Lemma concat_around (sep line : string) (above below : list string) :
  above <> [] -> below <> [] ->
  String.concat sep (above ++ line :: below)
    = (String.concat sep above ++ sep ++ line ++ sep ++ String.concat sep below)%string.
Proof.
  intros Habove Hbelow.
  induction above as [ | a above IH]; [contradiction Habove; reflexivity | ].
  destruct above as [ | a' above].
  - simpl. destruct below as [ | b below]; [contradiction Hbelow; reflexivity | ].
    reflexivity.
  - change (String.concat sep ((a :: a' :: above) ++ line :: below))
      with (a ++ sep ++ String.concat sep ((a' :: above) ++ line :: below))%string.
    rewrite IH by discriminate.
    change (String.concat sep (a :: a' :: above))
      with (a ++ sep ++ String.concat sep (a' :: above))%string.
    rewrite !string_append_assoc. reflexivity.
Qed.

Section Recommendations.

Variable genv : GroundingEnv.

(** A body that does not parse is rethrown as the parser's error, and
    the camera stays where it was. *)
Lemma unparsable_body_leaves_camera (params : AgriculturalParameters)
    (m : MapStore) (r : Response) (e : Exn) :
  apiKeyMissing genv = false ->
  fetch genv (recommendationRequest genv params) = Returned r ->
  ok r = true ->
  parseJson genv (responseText r) = Thrown e ->
  fetchAgriculturalRecommendations genv params m = (m, Thrown e).
Proof.
  intros Hkey Hfetch Hok Hparse. unfold fetchAgriculturalRecommendations.
  rewrite Hkey. unfold tryCatch, bind, await. rewrite Hfetch, Hok. simpl.
  rewrite Hparse. reflexivity.
Qed.

(** C8, as the code has it.  With the credential present and a response
    received: when the response is successful (status 200 to 299, so 200
    in particular) and its body parses, the call returns the parsed data
    and the camera target is written exactly once, to the field-level pose
    over the given coordinate, with auto-framing suppressed; when the
    response is successful and its body does not parse, the call throws
    the error of the parser and the map store is left as it was; when the
    response is not successful the call throws an error whose message
    embeds the status and the body, and the map store is left as it
    was. *)
Theorem fetchAgriculturalRecommendations_camera
    (params : AgriculturalParameters) (m : MapStore) (r : Response) :
  apiKeyMissing genv = false ->
  fetch genv (recommendationRequest genv params) = Returned r ->
  let target :=
    {| center := {| lat := latitude params; lng := longitude params;
                    altitude := 750%float |};
       range := 2500%float; tilt := 50%float;
       heading := 0%float; roll := 0%float |} in
  (statusCode r = 200 -> ok r = true) /\
  (ok r = true ->
   forall data, parseJson genv (responseText r) = Returned data ->
   exists m',
     fetchAgriculturalRecommendations genv params m = (m', Returned data) /\
     cameraTargetUpdates m' = cameraTargetUpdates m ++ [target] /\
     cameraTarget m' = Some target /\
     preventAutoFrame m' = true) /\
  (ok r = true ->
   forall e, parseJson genv (responseText r) = Thrown e ->
   fetchAgriculturalRecommendations genv params m = (m, Thrown e)) /\
  (ok r = false ->
   fetchAgriculturalRecommendations genv params m
     = (m, Thrown (Error ("API request failed with status "
                            ++ natToString (statusCode r) ++ ": "
                            ++ responseText r)))).
Proof.
  intros Hkey Hfetch target. split; [ | split; [ | split]].
  - intro H200. unfold ok. rewrite H200. reflexivity.
  - intros Hok data Hparse. unfold fetchAgriculturalRecommendations.
    rewrite Hkey. unfold tryCatch, bind, await. rewrite Hfetch, Hok. simpl.
    rewrite Hparse. simpl. eexists. repeat split; reflexivity.
  - intros Hok e Hparse.
    apply (unparsable_body_leaves_camera params m r e Hkey Hfetch Hok Hparse).
  - intro Hbad. unfold fetchAgriculturalRecommendations.
    rewrite Hkey. unfold tryCatch, bind, await. rewrite Hfetch, Hbad. reflexivity.
Qed.

(** C10.  In the prompt, an optional number that is zero leaves its line
    empty, exactly as an absent one does: the two prompts are equal, and
    the text of the prompt has nothing between the two line feeds where
    the line would stand.  The text of the prompt holds, between the sixth
    and the seventh line feed, the irrigation line, whatever the other
    parameters: with [irrigationAvailable] set to [false] it carries the
    line "Irrigation Available: No", and the irrigation line is empty only
    when the parameter is absent. *)
Theorem zero_parameter_prints_no_line (params : AgriculturalParameters) (x : number) :
  isZero x = true ->
  (rainfallLine genv (Some x) = EmptyString /\
   temperatureLine genv (Some x) = EmptyString /\
   farmSizeLine genv (Some x) = EmptyString) /\
  (agriculturalPrompt genv (handleInputChange (RainfallIs (Some x)) params)
     = agriculturalPrompt genv (handleInputChange (RainfallIs None) params) /\
   agriculturalPrompt genv (handleInputChange (TemperatureIs (Some x)) params)
     = agriculturalPrompt genv (handleInputChange (TemperatureIs None) params) /\
   agriculturalPrompt genv (handleInputChange (FarmSizeIs (Some x)) params)
     = agriculturalPrompt genv (handleInputChange (FarmSizeIs None) params)) /\
  nth_error (promptLines genv (handleInputChange (IrrigationAvailableIs false) params)) 6
    = Some "Irrigation Available: No" /\
  nth_error (promptLines genv params) 6
    = Some (irrigationLine (irrigationAvailable params)) /\
  (forall o, irrigationLine o = EmptyString <-> o = None) /\
  (forall o,
     agriculturalPrompt genv (withIrrigation o params)
       = (String.concat nl (firstn 6 (promptLines genv params))
            ++ nl ++ irrigationLine o ++ nl
            ++ String.concat nl (skipn 7 (promptLines genv params)))%string) /\
  occursIn (nl ++ "Irrigation Available: No" ++ nl)
    (agriculturalPrompt genv (handleInputChange (IrrigationAvailableIs false) params)) /\
  agriculturalPrompt genv (handleInputChange (RainfallIs (Some x)) params)
    = (String.concat nl (firstn 4 (promptLines genv params))
         ++ nl ++ nl ++ String.concat nl (skipn 5 (promptLines genv params)))%string /\
  agriculturalPrompt genv (handleInputChange (TemperatureIs (Some x)) params)
    = (String.concat nl (firstn 5 (promptLines genv params))
         ++ nl ++ nl ++ String.concat nl (skipn 6 (promptLines genv params)))%string /\
  agriculturalPrompt genv (handleInputChange (FarmSizeIs (Some x)) params)
    = (String.concat nl (firstn 7 (promptLines genv params))
         ++ nl ++ nl ++ String.concat nl (skipn 8 (promptLines genv params)))%string.
Proof.
  intro Hzero. pose proof (zero_is_falsy x Hzero) as Hfalsy.
  assert (Hirrigation : forall o,
            agriculturalPrompt genv (withIrrigation o params)
              = (String.concat nl (firstn 6 (promptLines genv params))
                   ++ nl ++ irrigationLine o ++ nl
                   ++ String.concat nl (skipn 7 (promptLines genv params)))%string).
  { intro o. unfold agriculturalPrompt.
    change (promptLines genv (withIrrigation o params))
      with (firstn 6 (promptLines genv params)
              ++ irrigationLine o :: skipn 7 (promptLines genv params)).
    apply concat_around; discriminate. }
  assert (Hlines : rainfallLine genv (Some x) = EmptyString /\
                   temperatureLine genv (Some x) = EmptyString /\
                   farmSizeLine genv (Some x) = EmptyString).
  { unfold rainfallLine, temperatureLine, farmSizeLine. rewrite Hfalsy. auto. }
  destruct Hlines as (Hrain & Htemp & Hfarm).
  split; [auto | ]. split.
  - unfold agriculturalPrompt, promptLines. simpl rainfall. simpl temperature.
    simpl farmSize. rewrite Hrain, Htemp, Hfarm. auto.
  - split; [reflexivity | ]. split; [reflexivity | ].
    split.
    { intro o. split.
      + destruct o as [[ | ] | ]; [discriminate | discriminate | reflexivity].
      + intros ->. reflexivity. }
    split; [exact Hirrigation | ]. split.
    { change (handleInputChange (IrrigationAvailableIs false) params)
        with (withIrrigation (Some false) params).
      rewrite Hirrigation.
      exists (String.concat nl (firstn 6 (promptLines genv params))),
             (String.concat nl (skipn 7 (promptLines genv params))).
      change (irrigationLine (Some false)) with "Irrigation Available: No".
      rewrite !string_append_assoc. reflexivity. }
    split; [ | split]; unfold agriculturalPrompt.
    + change (promptLines genv (handleInputChange (RainfallIs (Some x)) params))
        with (firstn 4 (promptLines genv params)
                ++ rainfallLine genv (Some x) :: skipn 5 (promptLines genv params)).
      rewrite Hrain. apply concat_around; discriminate.
    + change (promptLines genv (handleInputChange (TemperatureIs (Some x)) params))
        with (firstn 5 (promptLines genv params)
                ++ temperatureLine genv (Some x) :: skipn 6 (promptLines genv params)).
      rewrite Htemp. apply concat_around; discriminate.
    + change (promptLines genv (handleInputChange (FarmSizeIs (Some x)) params))
        with (firstn 7 (promptLines genv params)
                ++ farmSizeLine genv (Some x) :: skipn 8 (promptLines genv params)).
      rewrite Hfarm. apply concat_around; discriminate.
Qed.

End Recommendations.

(** ** The agricultural form *)

Section FormFields.

Variable parseFloat : string -> number.

(** C9.  The three optional numeric fields store
    [parseFloat(value) || undefined]; an input that parses to zero is
    therefore stored as [undefined], not as the number 0. *)
Theorem zero_is_stored_as_undefined (value : string) (prev : AgriculturalParameters) :
  isZero (parseFloat value) = true ->
  (rainfall (onRainfallChange parseFloat value prev) = orUndefined (parseFloat value) /\
   temperature (onTemperatureChange parseFloat value prev)
     = orUndefined (parseFloat value) /\
   farmSize (onFarmSizeChange parseFloat value prev) = orUndefined (parseFloat value)) /\
  rainfall (onRainfallChange parseFloat value prev) = None /\
  temperature (onTemperatureChange parseFloat value prev) = None /\
  farmSize (onFarmSizeChange parseFloat value prev) = None.
Proof.
  intro Hzero. split; [repeat split | ].
  simpl. unfold orUndefined. rewrite (zero_is_falsy _ Hzero). repeat split.
Qed.

End FormFields.

(* ================================================================= *)
(** * The properties on the sample environments *)

Lemma sampleEnv_logAccepts : logAccepts sampleEnv.
Proof. intros t l. reflexivity. Defined.


Lemma sampleEnv_handlersSettle : handlersSettle sampleEnv sampleCalls.
Proof.
  intros fc impl Hin Hreg a c mw.
  destruct Hin as [<- | [<- | [<- | []]]]; cbv in Hreg;
    try discriminate; injection Hreg as <-; simpl; discriminate.
Defined.

(** The sample batch: one handler returns, one throws, one name is
    unknown. *)
Example sample_batch_is_answered :
  toolResponses
    (client (fst (onToolCall sampleEnv sampleContext
                    {| functionCalls := sampleCalls |} freshState)))
  = [ [ {| responseId := "call-1"; responseName := "mapsGrounding";
           result := JString "3 places found" |};
        {| responseId := "call-2"; responseName := "frameLocations";
           result := JString "Error executing tool frameLocations." |};
        {| responseId := "call-3"; responseName := "plantTree";
           result := JString "Unknown tool called: plantTree." |} ] ].
Proof. reflexivity. Qed.

Example sample_batch_transcript :
  List.map text
    (turns (logStore (fst (onToolCall sampleEnv sampleContext
                             {| functionCalls := sampleCalls |} freshState))))
  = [ "Triggering function call: **mapsGrounding**" ++ nl ++ "```json" ++ nl
        ++ "{ }" ++ nl ++ "```";
      "Triggering function call: **frameLocations**" ++ nl ++ "```json" ++ nl
        ++ "{ }" ++ nl ++ "```";
      "Error executing tool frameLocations.";
      "Triggering function call: **plantTree**" ++ nl ++ "```json" ++ nl
        ++ "{ }" ++ nl ++ "```";
      "Function call response:" ++ nl ++ "```json" ++ nl ++ "{ }" ++ nl ++ "```" ]%string.
Proof. reflexivity. Qed.

(** An empty batch is answered with an empty batch, and nothing is logged. *)
Example empty_batch_is_answered :
  onToolCall sampleEnv sampleContext {| functionCalls := [] |} freshState
  = (onClient (recordToolResponse [])
       (onLog (writeAwaiting false) (onLog (writeAwaiting true) freshState)),
     Returned tt).
Proof. reflexivity. Qed.

(** A handler that never settles: nothing is sent and the flag stays up. *)
Example pending_handler_keeps_flag :
  snd (onToolCall sampleEnv sampleContext {| functionCalls := [slowCall] |} freshState)
    = Pending /\
  toolResponses
    (client (fst (onToolCall sampleEnv sampleContext
                    {| functionCalls := [slowCall] |} freshState))) = [] /\
  isAwaitingFunctionResponse
    (logStore (fst (onToolCall sampleEnv sampleContext
                      {| functionCalls := [slowCall] |} freshState))) = true.
Proof. repeat split. Qed.

Lemma onToolCall_awaiting_flag_witness :
  snd (onToolCall faultyEnv sampleContext {| functionCalls := sampleCalls |} freshState)
    = Thrown (Error "log store full") /\
  awaiting (fst (onToolCall faultyEnv sampleContext
                   {| functionCalls := sampleCalls |} freshState))
    = (false, [true; false]) /\
  awaiting (fst (onToolCall sampleEnv sampleContext
                   {| functionCalls := [slowCall] |} freshState))
    = (true, [true]).
Proof.
  split; [reflexivity | split].
  - pose proof (onToolCall_awaiting_flag faultyEnv sampleContext
                  {| functionCalls := sampleCalls |} freshState) as (_ & _ & H).
    destruct (onToolCall faultyEnv sampleContext
                {| functionCalls := sampleCalls |} freshState) as [s' o] eqn:E.
    assert (Ho : o = Thrown (Error "log store full"))
      by (apply (f_equal snd) in E; simpl in E; rewrite <- E; reflexivity).
    subst o. exact H.
  - pose proof (onToolCall_awaiting_flag sampleEnv sampleContext
                  {| functionCalls := [slowCall] |} freshState) as (_ & _ & H).
    destruct (onToolCall sampleEnv sampleContext
                {| functionCalls := [slowCall] |} freshState) as [s' o] eqn:E.
    assert (Ho : o = Pending)
      by (apply (f_equal snd) in E; simpl in E; rewrite <- E; reflexivity).
    subst o. exact H.
Defined.

Lemma onToolCall_answers_every_call_witness :
  exists rs,
    toolResponses
      (client (fst (onToolCall sampleEnv sampleContext
                      {| functionCalls := sampleCalls |} freshState)))
      = toolResponses (client freshState) ++ [rs] /\
    List.length rs = 3 /\
    List.map (fun r => (responseId r, responseName r)) rs
      = [("call-1", "mapsGrounding"); ("call-2", "frameLocations");
         ("call-3", "plantTree")].
Proof.
  destruct (onToolCall_answers_every_call sampleEnv sampleContext sampleCalls freshState
              sampleEnv_logAccepts sampleEnv_handlersSettle)
    as (rs & Hsent & Hlen & Hpairs & _).
  exists rs. split; [exact Hsent | split; [exact Hlen | exact Hpairs]].
Defined.

Lemma failing_tool_is_reported_and_batch_continues_witness :
  exists s' rs,
    handleFunctionCalls sampleEnv sampleContext (tl sampleCalls) [] freshState
      = (s', Returned ({| responseId := "call-2"; responseName := "frameLocations";
                          result := JString "Error executing tool frameLocations." |}
                         :: rs)) /\
    List.length rs = 1.
Proof.
  destruct (failing_tool_is_reported_and_batch_continues sampleEnv sampleContext
              {| id := "call-2"; name := "frameLocations"; args := JObject [] |}
              [ {| id := "call-3"; name := "plantTree"; args := JNull |} ]
              [] freshState _ emptyMap ["frameLocations"] (Error "map is not ready")
              sampleEnv_logAccepts eq_refl eq_refl)
    as (_ & _ & Hrest).
  destruct Hrest as (s' & rs & Hrun & Hall).
  - intros fc impl Hin Hreg. apply (sampleEnv_handlersSettle fc impl); [ | exact Hreg].
    right; right; exact Hin.
  - exists s', rs. split; [exact Hrun | ].
    symmetry. apply (Forall2_length Hall).
Defined.




(** On the plain object, a name that is neither an entry nor inherited is
    answered as unknown, as before. *)
Example plain_object_answers_the_sample_batch :
  toolResponses
    (client (fst (onToolCall plainObjectEnv sampleContext
                    {| functionCalls := sampleCalls |} freshState)))
  = toolResponses
      (client (fst (onToolCall sampleEnv sampleContext
                      {| functionCalls := sampleCalls |} freshState))).
Proof. reflexivity. Qed.


(** C5, as the specification words it, fails: the empty configuration
    [{}], the value the hook starts with, passes the guard of [connect];
    the transcript is cleared and a connection is opened with it. *)
Lemma connect_accepts_the_empty_configuration :
  snd (connect sampleEnv (Some []) busyState) = Returned tt /\
  sessions (client (fst (connect sampleEnv (Some []) busyState))) = [ [] ] /\
  turns (logStore busyState) <> [] /\
  turns (logStore (fst (connect sampleEnv (Some []) busyState))) = [] /\
  ~ (exists e, snd (connect sampleEnv (Some []) busyState) = Thrown e).
Proof.
  split; [reflexivity | ]. split; [reflexivity | ]. split; [discriminate | ].
  split; [reflexivity | ]. intros [e He]. discriminate He.
Qed.

Lemma connect_resets_then_connects_witness :
  sessions
    (client
       (fst (connect sampleEnv (Some [("responseModalities", JString "AUDIO")])
               (fst (connect sampleEnv (Some []) busyState)))))
    = [ [("responseModalities", JString "AUDIO")] ] /\
  connect sampleEnv None busyState
    = (busyState, Thrown (Error "config has not been set")).
Proof.
  destruct (connect_resets_then_connects sampleEnv) as (Habsent & _ & Htwice).
  destruct (Htwice [] [("responseModalities", JString "AUDIO")] busyState eq_refl)
    as (_ & Hone & _).
  split; [exact Hone | exact (Habsent busyState)].
Defined.

(** C6, as the specification words it, fails: the turn appended on
    [close] has the role [agent], not [system]. *)
Lemma onClose_turn_is_not_a_system_turn :
  exists t,
    turns (logStore (fst (onClose sampleEnv "peer closed" busyState)))
      = turns (logStore busyState) ++ [t] /\
    role t = agent /\
    role t <> system.
Proof.
  eexists. split; [reflexivity | ]. split; [reflexivity | discriminate].
Qed.

Lemma onClose_marks_disconnected_and_logs_witness :
  exists s',
    onClose sampleEnv "peer closed" busyState = (s', Returned tt) /\
    connected s' = false /\
    lastTurnOf (turns (logStore s'))
      = Some {| role := agent;
                text := "Session ended. Press 'Play' to start a new session. peer closed";
                isFinal := true |}.
Proof.
  destruct (onClose_marks_disconnected_and_logs sampleEnv "peer closed" busyState
              sampleEnv_logAccepts) as (s' & Hrun & Hoff & Hturns & _).
  exists s'. split; [exact Hrun | split; [exact Hoff | ]].
  rewrite Hturns. apply lastTurnOf_snoc.
Defined.

Lemma onInterrupted_finalises_last_turn_witness :
  turns (logStore (fst (onInterrupted busyState)))
    = [ {| role := user; text := "which crops suit clay?"; isFinal := true |};
        {| role := agent; text := "For clay soils, cons"; isFinal := true |} ] /\
  onInterrupted freshState = (freshState, Returned tt).
Proof.
  split.
  - destruct (onInterrupted_finalises_last_turn busyState) as (_ & _ & Hopen & _).
    exact (Hopen [ {| role := user; text := "which crops suit clay?"; isFinal := true |} ]
             {| role := agent; text := "For clay soils, cons"; isFinal := false |}
             eq_refl eq_refl).
  - destruct (onInterrupted_finalises_last_turn freshState) as (_ & _ & _ & _ & Hempty).
    exact (Hempty eq_refl).
Defined.

(** C8, as the specification words it, fails: a response with status 200
    whose body is no JSON is a successful response, and the call throws
    with the camera target never written. *)
Lemma successful_response_without_json_moves_no_camera :
  ok {| statusCode := 200; responseText := "<html>" |} = true /\
  fetchAgriculturalRecommendations (sampleGroundingEnv 200 "<html>") sampleParameters
    emptyMap
    = (emptyMap, Thrown (Error "Unexpected token")) /\
  cameraTargetUpdates
    (fst (fetchAgriculturalRecommendations (sampleGroundingEnv 200 "<html>")
            sampleParameters emptyMap)) = [].
Proof. repeat split. Qed.

Lemma fetchAgriculturalRecommendations_camera_witness :
  (exists m',
     fetchAgriculturalRecommendations (sampleGroundingEnv 200 "{ }") sampleParameters
       emptyMap = (m', Returned sampleReply) /\
     List.length (cameraTargetUpdates m') = 1 /\
     preventAutoFrame m' = true) /\
  fetchAgriculturalRecommendations (sampleGroundingEnv 200 "<html>") sampleParameters
    emptyMap
    = (emptyMap, Thrown (Error "Unexpected token")) /\
  fetchAgriculturalRecommendations (sampleGroundingEnv 503 "overloaded") sampleParameters
    emptyMap
    = (emptyMap, Thrown (Error "API request failed with status 503: overloaded")).
Proof.
  split; [ | split].
  - destruct (fetchAgriculturalRecommendations_camera (sampleGroundingEnv 200 "{ }")
                sampleParameters emptyMap
                {| statusCode := 200; responseText := "{ }" |} eq_refl eq_refl)
      as (_ & Hok & _).
    destruct (Hok eq_refl sampleReply eq_refl) as (m' & Hrun & Hone & _ & Hflag).
    exists m'. split; [exact Hrun | split; [ | exact Hflag]].
    rewrite Hone. reflexivity.
  - destruct (fetchAgriculturalRecommendations_camera (sampleGroundingEnv 200 "<html>")
                sampleParameters emptyMap
                {| statusCode := 200; responseText := "<html>" |} eq_refl eq_refl)
      as (_ & _ & Hbody & _).
    exact (Hbody eq_refl (Error "Unexpected token") eq_refl).
  - destruct (fetchAgriculturalRecommendations_camera (sampleGroundingEnv 503 "overloaded")
                sampleParameters emptyMap
                {| statusCode := 503; responseText := "overloaded" |} eq_refl eq_refl)
      as (_ & _ & _ & Hbad).
    exact (Hbad eq_refl).
Defined.

Lemma zero_parameter_prints_no_line_witness :
  agriculturalPrompt (sampleGroundingEnv 200 "{ }")
    (handleInputChange (RainfallIs (Some 0%float)) sampleParameters)
  = agriculturalPrompt (sampleGroundingEnv 200 "{ }")
      (handleInputChange (RainfallIs None) sampleParameters) /\
  occursIn (nl ++ "Irrigation Available: No" ++ nl)
    (agriculturalPrompt (sampleGroundingEnv 200 "{ }")
       (handleInputChange (IrrigationAvailableIs false) sampleParameters)).
Proof.
  destruct (zero_parameter_prints_no_line (sampleGroundingEnv 200 "{ }")
              sampleParameters 0%float eq_refl)
    as (_ & (Hrain & _) & _ & _ & _ & _ & Hcarried & _).
  split; [exact Hrain | exact Hcarried].
Defined.

(** The prompt of the sample parameters, whose rainfall is zero and whose
    irrigation is [false]. *)
Example sample_prompt_text :
  agriculturalPrompt (sampleGroundingEnv 200 "{ }") sampleParameters
  = ("Location: 12.5, 77.25" ++ nl
     ++ "Soil Type: clay" ++ nl
     ++ "Climate: tropical" ++ nl
     ++ "Season: summer" ++ nl
     ++ nl
     ++ "Average Temperature: 25°C" ++ nl
     ++ "Irrigation Available: No" ++ nl
     ++ nl
     ++ "Previous Crop: Rice" ++ nl
     ++ nl
     ++ "Please provide detailed crop recommendations for this agricultural location.")%string.
Proof. reflexivity. Qed.

Lemma zero_is_stored_as_undefined_witness :
  rainfall (onRainfallChange sampleParseFloat "0" initialFormData) = None /\
  temperature (onTemperatureChange sampleParseFloat "0" initialFormData) = None /\
  farmSize (onFarmSizeChange sampleParseFloat "0" initialFormData) = None.
Proof.
  destruct (zero_is_stored_as_undefined sampleParseFloat "0" initialFormData eq_refl)
    as (_ & H).
  exact H.
Defined.

(* ================================================================= *)
(** * Further properties of the tool-call protocol *)

Section ToolCallsInAnyEnvironment.

Context {World : Type}.
Variable env : Env World.
Variable ctx : ToolContext.

Lemma appends_ret A (a : A) : appendsSystemTurns (World := World) (ret a).
Proof. intro s. exists []. rewrite app_nil_r. split; [reflexivity | constructor]. Qed.

Lemma appends_bind A B (m : M (State World) A) (k : A -> M (State World) B) :
  appendsSystemTurns m -> (forall a, appendsSystemTurns (k a)) ->
  appendsSystemTurns (bind m k).
Proof.
  intros Hm Hk s. unfold bind. destruct (Hm s) as (add1 & H1 & F1).
  destruct (m s) as [s' [a | e | ]]; simpl in *;
    try (exists add1; split; assumption).
  destruct (Hk a s') as (add2 & H2 & F2).
  exists (add1 ++ add2). rewrite H2, H1, app_assoc.
  split; [reflexivity | apply Forall_app; split; assumption].
Qed.

Lemma appends_tryCatch A (m : M (State World) A) (h : Exn -> M (State World) A) :
  appendsSystemTurns m -> (forall e, appendsSystemTurns (h e)) ->
  appendsSystemTurns (tryCatch m h).
Proof.
  intros Hm Hh s. unfold tryCatch. destruct (Hm s) as (add1 & H1 & F1).
  destruct (m s) as [s' [a | e | ]]; simpl in *;
    try (exists add1; split; assumption).
  destruct (Hh e s') as (add2 & H2 & F2).
  exists (add1 ++ add2). rewrite H2, H1, app_assoc.
  split; [reflexivity | apply Forall_app; split; assumption].
Qed.

Lemma appends_addTurn t : appendsSystemTurns (addTurn env (systemTurn t)).
Proof.
  intro s. unfold addTurn.
  destruct (addTurnFault env (systemTurn t) (logStore s)); simpl.
  - exists []. rewrite app_nil_r. split; [reflexivity | constructor].
  - exists [systemTurn t]. split; [reflexivity | ].
    constructor; [split; reflexivity | constructor].
Qed.

Lemma appends_callTool (impl : ToolImplementation World) a :
  appendsSystemTurns (callTool impl a ctx).
Proof.
  intro s. unfold callTool.
  destruct (impl a ctx (mapStore s, world s)) as [[m w] o]. simpl.
  exists []. rewrite app_nil_r. split; [reflexivity | constructor].
Qed.

Lemma appends_handleFunctionCalls calls :
  forall acc, appendsSystemTurns (handleFunctionCalls env ctx calls acc).
Proof.
  induction calls as [ | fc rest IH]; intro acc; simpl.
  - apply appends_ret.
  - apply appends_bind; [ | intro; apply IH].
    unfold handleFunctionCall.
    apply appends_bind; [apply appends_addTurn | intros _].
    apply appends_tryCatch.
    + apply appends_bind; [ | intro; apply appends_ret].
      destruct (toolRegistry env (name fc)); [apply appends_callTool | apply appends_ret].
    + intros _. apply appends_bind; [apply appends_addTurn | intro; apply appends_ret].
Qed.

Lemma appends_toolCallBody toolCall : appendsSystemTurns (toolCallBody env ctx toolCall).
Proof.
  unfold toolCallBody.
  apply appends_bind; [apply appends_handleFunctionCalls | intro rs].
  apply appends_bind.
  - destruct (Nat.ltb 0 (List.length rs)); [apply appends_addTurn | apply appends_ret].
  - intros _ s. unfold sendToolResponse.
    exists []. rewrite app_nil_r.
    destruct (sendFault env rs (client s)); split; try reflexivity; constructor.
Qed.

(** X2.  Whatever the handlers, the log store and the client do, [onToolCall]
    only appends to the transcript, and every turn it appends is a final
    system turn. *)
Theorem onToolCall_appends_system_turns (toolCall : LiveServerToolCall)
    (s : State World) :
  exists added,
    turns (logStore (fst (onToolCall env ctx toolCall s)))
      = turns (logStore s) ++ added /\
    Forall (fun t => role t = system /\ isFinal t = true) added.
Proof.
  destruct (appends_toolCallBody toolCall (onLog (writeAwaiting true) s))
    as (added & Hturns & Hall).
  exists added. split; [ | exact Hall].
  change (onToolCall env ctx toolCall s)
    with (tryFinally (toolCallBody env ctx toolCall)
            (setIsAwaitingFunctionResponse false) (onLog (writeAwaiting true) s)).
  unfold tryFinally.
  destruct (toolCallBody env ctx toolCall (onLog (writeAwaiting true) s)) as [s1 o].
  simpl in Hturns. destruct o; simpl; exact Hturns.
Qed.

(** One call that returns a batch: the batch is the one it was given and
    one response more, which answers the call. *)
Lemma handleFunctionCall_returned fc acc s s' out :
  handleFunctionCall env ctx fc acc s = (s', Returned out) ->
  exists r, out = acc ++ [r] /\ answers env fc r.
Proof.
  unfold handleFunctionCall, bind at 1, addTurn at 1.
  destruct (addTurnFault env (systemTurn (triggerMessage env fc)) (logStore s));
    [discriminate | ].
  unfold tryCatch, bind at 1.
  destruct (toolRegistry env (name fc)) as [impl | ] eqn:Hreg.
  - unfold callTool. simpl.
    destruct (impl (args fc) ctx (mapStore s, world s)) as [[m w] [r | e | ]]; simpl.
    + intro H. injection H as _ <-. eexists. split; [reflexivity | ].
      repeat split; simpl; auto. intro Hn; rewrite Hn in Hreg; discriminate.
    + unfold bind, addTurn. simpl.
      match goal with |- context [addTurnFault env ?t ?l] =>
        destruct (addTurnFault env t l) end; [discriminate | ].
      intro H. injection H as _ <-. eexists. split; [reflexivity | ].
      repeat split; simpl; auto. intro Hn; rewrite Hn in Hreg; discriminate.
    + discriminate.
  - simpl. intro H. injection H as _ <-. eexists. split; [reflexivity | ].
    repeat split; simpl; auto.
Qed.

Lemma handleFunctionCalls_returned calls :
  forall acc s s' out,
    handleFunctionCalls env ctx calls acc s = (s', Returned out) ->
    exists rs, out = acc ++ rs /\ Forall2 (answers env) calls rs.
Proof.
  induction calls as [ | fc rest IH]; intros acc s s' out; simpl.
  - intro H. injection H as _ <-. exists []. rewrite app_nil_r.
    split; [reflexivity | constructor].
  - unfold bind.
    destruct (handleFunctionCall env ctx fc acc s) as [s1 [out1 | e | ]] eqn:Hone;
      try discriminate.
    intro Hrest. destruct (handleFunctionCall_returned _ _ _ _ _ Hone) as (r & -> & Hr).
    destruct (IH _ _ _ _ Hrest) as (rs & -> & Hall).
    exists (r :: rs). rewrite <- app_assoc. split; [reflexivity | constructor; assumption].
Qed.

(** X3.  In every environment [onToolCall] calls [sendToolResponse] at most
    once, and never with part of a batch: when it returns, one batch
    answering all calls was handed over; when it throws, either nothing was
    handed over or that one complete batch; while a handler stays pending,
    nothing. *)
Theorem onToolCall_sends_at_most_once (calls : list FunctionCall) (s : State World) :
  let sentAll (s' : State World) :=
    exists rs,
      toolResponses (client s') = toolResponses (client s) ++ [rs] /\
      Forall2 (answers env) calls rs in
  match onToolCall env ctx {| functionCalls := calls |} s with
  | (s', Returned _) => sentAll s'
  | (s', Thrown _) => toolResponses (client s') = toolResponses (client s) \/ sentAll s'
  | (s', Pending) => toolResponses (client s') = toolResponses (client s)
  end.
Proof.
  cbv zeta.
  set (s0 := onLog (writeAwaiting true) s).
  change (onToolCall env ctx {| functionCalls := calls |} s)
    with (tryFinally (toolCallBody env ctx {| functionCalls := calls |})
            (setIsAwaitingFunctionResponse false) s0).
  unfold tryFinally, toolCallBody, bind at 1. simpl functionCalls.
  pose proof (preserves_handleFunctionCalls env ctx client (client_turn) (client_tool)
                calls [] s0) as Hc1.
  destruct (handleFunctionCalls env ctx calls [] s0) as [s1 [out | e | ]] eqn:Hrun;
    simpl in Hc1; try (simpl; try left; rewrite Hc1; reflexivity).
  destruct (handleFunctionCalls_returned _ _ _ _ _ Hrun) as (rs & Hout & Hall).
  simpl in Hout. subst out. unfold bind at 1.
  assert (Hlog : forall s2 o,
            (if Nat.ltb 0 (List.length rs)
             then addTurn env (systemTurn (responseMessage env rs))
             else ret tt) s1 = (s2, o) -> client s2 = client s1).
  { intros s2 o H. destruct (Nat.ltb 0 (List.length rs)).
    - pose proof (preserves_addTurn env client client_turn
                    (systemTurn (responseMessage env rs)) s1) as Hp.
      rewrite H in Hp. exact Hp.
    - injection H as <- _. reflexivity. }
  destruct ((if Nat.ltb 0 (List.length rs)
             then addTurn env (systemTurn (responseMessage env rs))
             else ret tt) s1) as [s2 [[] | e | ]] eqn:Hlogged;
    pose proof (Hlog _ _ eq_refl) as Hc2; simpl.
  - unfold sendToolResponse.
    destruct (sendFault env rs (client s2)); simpl; [right | ];
      exists rs; rewrite Hc2, Hc1; split; auto.
  - left. rewrite Hc2, Hc1. reflexivity.
  - rewrite Hc2, Hc1. reflexivity.
Qed.

(** X1.  A handler found in the registry returns: the loop appends the trigger
    turn and nothing else, pushes a response with the call's id and name
    and the value returned as result, and goes on with the remaining calls
    from the state the handler left. *)
Theorem returning_tool_is_answered_with_its_result
    (fc : FunctionCall) (rest : list FunctionCall) (acc : list FunctionResponse)
    (s : State World) (impl : ToolImplementation World)
    (m : MapStore) (w : World) (r : Json) :
  addTurnFault env (systemTurn (triggerMessage env fc)) (logStore s) = None ->
  toolRegistry env (name fc) = Some impl ->
  impl (args fc) ctx (mapStore s, world s) = ((m, w), Returned r) ->
  handleFunctionCalls env ctx (fc :: rest) acc s
    = handleFunctionCalls env ctx rest
        (acc ++ [{| responseId := id fc; responseName := name fc; result := r |}])
        {| logStore :=
             {| turns := turns (logStore s) ++ [systemTurn (triggerMessage env fc)];
                isAwaitingFunctionResponse := isAwaitingFunctionResponse (logStore s);
                awaitingHistory := awaitingHistory (logStore s) |};
           mapStore := m;
           client := client s;
           connected := connected s;
           world := w |}.
Proof.
  intros Hlog Hreg Himpl.
  simpl. unfold bind at 1, handleFunctionCall, bind at 1, addTurn.
  rewrite Hlog. unfold tryCatch, bind at 1. rewrite Hreg.
  unfold callTool. simpl. rewrite Himpl. reflexivity.
Qed.

(** X4.  An empty batch, in every environment: no turn is added, the client is
    handed the empty batch, once, and the awaiting flag goes up and down;
    only the client can make the call throw. *)
Theorem onToolCall_empty_batch (s : State World) :
  onToolCall env ctx {| functionCalls := [] |} s
    = (onLog (writeAwaiting false)
         (onClient (recordToolResponse []) (onLog (writeAwaiting true) s)),
       match sendFault env [] (client s) with
       | Some e => Thrown e
       | None => Returned tt
       end).
Proof.
  unfold onToolCall, setIsAwaitingFunctionResponse, update, bind at 1.
  unfold tryFinally, toolCallBody, bind, sendToolResponse. simpl.
  destruct (sendFault env [] (client s)); reflexivity.
Qed.

(** X5.  The log store throws on the turn that announces the first call: the
    error leaves [onToolCall], no handler has run, nothing is added to the
    transcript and the client is handed nothing; the awaiting flag is
    still lowered. *)
Theorem onToolCall_dropped_when_logging_fails
    (fc : FunctionCall) (rest : list FunctionCall) (s : State World) (e : Exn) :
  addTurnFault env (systemTurn (triggerMessage env fc))
    (writeAwaiting true (logStore s)) = Some e ->
  onToolCall env ctx {| functionCalls := fc :: rest |} s
    = (onLog (writeAwaiting false) (onLog (writeAwaiting true) s), Thrown e).
Proof.
  intro Hfault.
  unfold onToolCall, setIsAwaitingFunctionResponse, update, bind at 1.
  unfold tryFinally, toolCallBody, bind at 1. simpl functionCalls.
  simpl handleFunctionCalls. unfold bind at 1, handleFunctionCall, bind at 1, addTurn.
  simpl logStore. rewrite Hfault. reflexivity.
Qed.

(** X6.  What is logged is what is sent: after a batch that is not empty, the
    log store accepting turns and the handlers settling, the last turn of
    the transcript shows the very batch the client was handed. *)
Theorem onToolCall_logs_the_batch_it_sends (calls : list FunctionCall) (s : State World) :
  logAccepts env -> handlersSettle env calls -> calls <> [] ->
  exists rs,
    toolResponses (client (fst (onToolCall env ctx {| functionCalls := calls |} s)))
      = toolResponses (client s) ++ [rs] /\
    lastTurnOf
      (turns (logStore (fst (onToolCall env ctx {| functionCalls := calls |} s))))
      = Some {| role := system; text := responseMessage env rs; isFinal := true |}.
Proof.
  intros Hlog Hset Hne.
  set (s0 := onLog (writeAwaiting true) s).
  destruct (handleFunctionCalls_answers env ctx calls Hlog Hset [] s0)
    as (s1 & rs & Hrun & Hall).
  simpl in Hrun.
  assert (Hc1 : client s1 = client s).
  { pose proof (preserves_handleFunctionCalls env ctx client client_turn client_tool
                  calls [] s0) as Hp.
    rewrite Hrun in Hp. exact Hp. }
  assert (Hlen : Nat.ltb 0 (List.length rs) = true).
  { apply Nat.ltb_lt. rewrite <- (Forall2_length Hall).
    destruct calls; [contradiction Hne; reflexivity | simpl; lia]. }
  assert (Heq : onToolCall env ctx {| functionCalls := calls |} s
                = tryFinally (sendToolResponse env rs)
                    (setIsAwaitingFunctionResponse false)
                    (onLog (pushTurn (systemTurn (responseMessage env rs))) s1)).
  { unfold onToolCall, setIsAwaitingFunctionResponse at 1, update at 1, bind at 1.
    fold s0. unfold tryFinally, toolCallBody, bind at 1. simpl functionCalls.
    rewrite Hrun. unfold bind at 1. rewrite Hlen, (addTurn_run _ _ _ Hlog). reflexivity. }
  exists rs. rewrite Heq. unfold tryFinally, sendToolResponse.
  destruct (sendFault env rs
              (client (onLog (pushTurn (systemTurn (responseMessage env rs))) s1)));
    simpl; rewrite Hc1; (split; [reflexivity | apply lastTurnOf_snoc]).
Qed.

End ToolCallsInAnyEnvironment.

(* ================================================================= *)
(** * Properties of the events and of the session lifecycle *)

Lemma keptAs_refl (t : ConversationTurn) : keptAs t t.
Proof. repeat split; auto. Qed.

Lemma keptAs_all_refl (ts : list ConversationTurn) : Forall2 keptAs ts ts.
Proof. induction ts; constructor; [apply keptAs_refl | assumption]. Qed.

Lemma keptAs_trans (a b c : ConversationTurn) : keptAs a b -> keptAs b c -> keptAs a c.
Proof.
  intros (R1 & T1 & F1) (R2 & T2 & F2).
  repeat split; [congruence | congruence | auto].
Qed.

Lemma keptAs_all_trans (xs : list ConversationTurn) :
  forall ys zs, Forall2 keptAs xs ys -> Forall2 keptAs ys zs -> Forall2 keptAs xs zs.
Proof.
  induction xs as [ | x xs IH]; intros ys zs H1 H2.
  - inversion H1; subst. inversion H2; subst. constructor.
  - inversion H1 as [ | ? y ? ys' Hxy Hrest]; subst.
    inversion H2 as [ | ? z ? zs' Hyz Hrest']; subst.
    constructor; [eapply keptAs_trans; eassumption | eapply IH; eassumption].
Qed.

Lemma keptAs_all_final (xs : list ConversationTurn) :
  forall ys,
    Forall2 keptAs xs ys -> Forall (fun t => isFinal t = true) xs ->
    Forall (fun t => isFinal t = true) ys.
Proof.
  induction xs as [ | x xs IH]; intros ys H2 Hall.
  - inversion H2; constructor.
  - inversion H2 as [ | ? y ? ys' (_ & _ & Hf) Hrest]; subst.
    inversion Hall; subst. constructor; [auto | apply IH; assumption].
Qed.

Lemma grows_refl (ts : list ConversationTurn) : grows ts ts.
Proof.
  exists ts, []. rewrite app_nil_r.
  split; [reflexivity | split; [apply keptAs_all_refl | constructor]].
Qed.

Lemma grows_append (ts added : list ConversationTurn) :
  Forall (fun t => isFinal t = true) added -> grows ts (ts ++ added).
Proof.
  intro H. exists ts, added.
  split; [reflexivity | split; [apply keptAs_all_refl | exact H]].
Qed.

Lemma grows_trans (a b c : list ConversationTurn) : grows a b -> grows b c -> grows a c.
Proof.
  intros (k1 & a1 & -> & K1 & F1) (k2 & a2 & -> & K2 & F2).
  apply Forall2_app_inv_l in K2. destruct K2 as (k2a & k2b & Ka & Kb & ->).
  exists k2a, (k2b ++ a2). rewrite app_assoc.
  split; [reflexivity | split].
  - eapply keptAs_all_trans; eassumption.
  - apply Forall_app. split; [eapply keptAs_all_final; eassumption | assumption].
Qed.

Lemma mergeLast_final_kept (ts : list ConversationTurn) :
  Forall2 keptAs ts (mergeLast finalUpdate ts).
Proof.
  induction ts as [ | t rest IH]; [constructor | ].
  destruct rest as [ | t' rest'].
  - constructor; [ | constructor]. repeat split; auto.
  - change (mergeLast finalUpdate (t :: t' :: rest'))
      with (t :: mergeLast finalUpdate (t' :: rest')).
    constructor; [apply keptAs_refl | exact IH].
Qed.

Lemma lastTurnOf_inv (ts : list ConversationTurn) (t : ConversationTurn) :
  lastTurnOf ts = Some t -> exists earlier, ts = earlier ++ [t].
Proof.
  destruct ts as [ | t0 rest _] using rev_ind; [discriminate | ].
  rewrite lastTurnOf_snoc. intro H. injection H as ->. exists rest. reflexivity.
Qed.

Section NeverPending.

Context {World : Type}.
Variable env : Env World.
Variable ctx : ToolContext.

Lemma neverPending_ret A (a : A) : neverPending (World := World) (ret a).
Proof. intro s. discriminate. Qed.

Lemma neverPending_bind A B (m : M (State World) A) (k : A -> M (State World) B) :
  neverPending m -> (forall a, neverPending (k a)) -> neverPending (bind m k).
Proof.
  intros Hm Hk s. unfold bind. specialize (Hm s).
  destruct (m s) as [s' [a | e | ]]; simpl in *;
    [apply Hk | discriminate | contradiction Hm; reflexivity].
Qed.

Lemma neverPending_tryCatch A (m : M (State World) A) (h : Exn -> M (State World) A) :
  neverPending m -> (forall e, neverPending (h e)) -> neverPending (tryCatch m h).
Proof.
  intros Hm Hh s. unfold tryCatch. specialize (Hm s).
  destruct (m s) as [s' [a | e | ]]; simpl in *;
    [discriminate | apply Hh | contradiction Hm; reflexivity].
Qed.

Lemma neverPending_addTurn t : neverPending (addTurn env t).
Proof.
  intro s. unfold addTurn. destruct (addTurnFault env t (logStore s)); discriminate.
Qed.

Lemma neverPending_toolCallBody toolCall :
  registrySettles env -> neverPending (toolCallBody env ctx toolCall).
Proof.
  intro Hset. unfold toolCallBody. apply neverPending_bind.
  - generalize (@nil FunctionResponse).
    induction (functionCalls toolCall) as [ | fc rest IH]; intro acc; simpl.
    + apply neverPending_ret.
    + apply neverPending_bind; [ | intro; apply IH].
      unfold handleFunctionCall.
      apply neverPending_bind; [apply neverPending_addTurn | intros _].
      apply neverPending_tryCatch.
      * apply neverPending_bind; [ | intro; apply neverPending_ret].
        destruct (toolRegistry env (name fc)) as [impl | ] eqn:Hreg;
          [ | apply neverPending_ret].
        intro s. unfold callTool.
        pose proof (Hset _ _ Hreg (args fc) ctx (mapStore s, world s)) as Hnp.
        destruct (impl (args fc) ctx (mapStore s, world s)) as [[m w] o]. exact Hnp.
      * intros _. apply neverPending_bind;
          [apply neverPending_addTurn | intro; apply neverPending_ret].
  - intro rs. apply neverPending_bind.
    + destruct (Nat.ltb 0 (List.length rs));
        [apply neverPending_addTurn | apply neverPending_ret].
    + intros _ s. unfold sendToolResponse.
      destruct (sendFault env rs (client s)); discriminate.
Qed.

End NeverPending.

Section EventSequences.

Context {World : Type}.
Variable env : Env World.
Variable ctx : ToolContext.

Lemma handleEvent_grows (e : LiveEvent) (s : State World) :
  grows (turns (logStore s)) (turns (logStore (fst (handleEvent env ctx e s)))).
Proof.
  destruct e as [ | | reason | | | toolCall]; simpl handleEvent.
  - apply grows_refl.
  - apply grows_refl.
  - unfold onClose, setConnected, update, bind, addTurn. simpl.
    match goal with |- context [addTurnFault env ?t ?l] =>
      destruct (addTurnFault env t l) end; simpl.
    + apply grows_refl.
    + apply grows_append. constructor; [reflexivity | constructor].
  - unfold onInterrupted.
    destruct (lastTurnOf (turns (logStore s))) as [t | ]; [ | apply grows_refl].
    destruct (isFinal t); simpl; [apply grows_refl | ].
    exists (mergeLast finalUpdate (turns (logStore s))), [].
    rewrite app_nil_r.
    split; [reflexivity | split; [apply mergeLast_final_kept | constructor]].
  - apply grows_refl.
  - destruct (appends_toolCallBody env ctx toolCall (onLog (writeAwaiting true) s))
      as (added & Hturns & Hall).
    change (onToolCall env ctx toolCall s)
      with (tryFinally (toolCallBody env ctx toolCall)
              (setIsAwaitingFunctionResponse false) (onLog (writeAwaiting true) s)).
    unfold tryFinally.
    destruct (toolCallBody env ctx toolCall (onLog (writeAwaiting true) s)) as [s1 o].
    simpl in Hturns.
    assert (Hg : grows (turns (logStore s)) (turns (logStore s1))).
    { rewrite Hturns. apply grows_append.
      eapply Forall_impl; [ | exact Hall]. intros t (_ & Hf). exact Hf. }
    destruct o; simpl; exact Hg.
Qed.

(** X7.  Whatever events arrive, in whatever order, and whatever the handlers,
    the log store and the client do: the turns the transcript had are
    kept, in order, with their role and text; a turn that was final
    stays final; every turn that is added is final. *)
Theorem deliver_only_grows_the_transcript (events : list LiveEvent) :
  forall s : State World,
    grows (turns (logStore s)) (turns (logStore (deliver env ctx events s))).
Proof.
  induction events as [ | e rest IH]; intro s; simpl.
  - apply grows_refl.
  - eapply grows_trans; [apply handleEvent_grows | apply IH].
Qed.

(** X8.  When every handler of the registry settles, no sequence of events
    leaves the awaiting flag up: lowered before, it is lowered after, also
    when the log store or the client throw. *)
Theorem deliver_keeps_the_flag_lowered (events : list LiveEvent) :
  registrySettles env ->
  forall s : State World,
    isAwaitingFunctionResponse (logStore s) = false ->
    isAwaitingFunctionResponse (logStore (deliver env ctx events s)) = false.
Proof.
  intro Hset. induction events as [ | e rest IH]; intros s Hlow; simpl; [exact Hlow | ].
  apply IH. destruct e as [ | | reason | | | toolCall]; simpl handleEvent.
  - exact Hlow.
  - exact Hlow.
  - unfold onClose, setConnected, update, bind, addTurn. simpl.
    match goal with |- context [addTurnFault env ?t ?l] =>
      destruct (addTurnFault env t l) end; exact Hlow.
  - unfold onInterrupted.
    destruct (lastTurnOf (turns (logStore s))) as [t | ]; [ | exact Hlow].
    destruct (isFinal t); exact Hlow.
  - exact Hlow.
  - change (onToolCall env ctx toolCall s)
      with (tryFinally (toolCallBody env ctx toolCall)
              (setIsAwaitingFunctionResponse false) (onLog (writeAwaiting true) s)).
    unfold tryFinally.
    pose proof (neverPending_toolCallBody env ctx toolCall Hset
                  (onLog (writeAwaiting true) s)) as Hnp.
    destruct (toolCallBody env ctx toolCall (onLog (writeAwaiting true) s))
      as [s1 [[] | e | ]]; simpl in *; [reflexivity | reflexivity | ].
    contradiction Hnp; reflexivity.
Qed.

Lemma connected_turn t (s : State World) :
  connected (onLog (pushTurn t) s) = connected s.
Proof. reflexivity. Qed.

Lemma connected_tool (s : State World) (m : MapStore) (w : World) :
  connected {| logStore := logStore s; mapStore := m; client := client s;
               connected := connected s; world := w |} = connected s.
Proof. reflexivity. Qed.

(** X9.  The connected flag follows the open and close events and nothing
    else: after any sequence of events it is what the last of them says,
    and what it was when there was none. *)
Theorem deliver_connected (events : list LiveEvent) :
  forall s : State World,
    connected (deliver env ctx events s) = connectedAfter events (connected s).
Proof.
  induction events as [ | e rest IH]; intro s; simpl; [reflexivity | ].
  rewrite IH. destruct e as [ | | reason | | | toolCall]; simpl handleEvent.
  - reflexivity.
  - reflexivity.
  - unfold onClose, setConnected, update, bind, addTurn. simpl.
    match goal with |- context [addTurnFault env ?t ?l] =>
      destruct (addTurnFault env t l) end; reflexivity.
  - unfold onInterrupted.
    destruct (lastTurnOf (turns (logStore s))) as [t | ]; [ | reflexivity].
    destruct (isFinal t); reflexivity.
  - reflexivity.
  - f_equal.
    change (onToolCall env ctx toolCall s)
      with (tryFinally (toolCallBody env ctx toolCall)
              (setIsAwaitingFunctionResponse false) (onLog (writeAwaiting true) s)).
    assert (Hbody : preserves (@connected World) (toolCallBody env ctx toolCall)).
    { unfold toolCallBody. apply preserves_bind.
      - apply preserves_handleFunctionCalls;
          [apply connected_turn | apply connected_tool].
      - intro rs. apply preserves_bind.
        + destruct (Nat.ltb 0 (List.length rs)).
          * apply preserves_addTurn. apply connected_turn.
          * apply preserves_ret.
        + intros _ s'. unfold sendToolResponse.
          destruct (sendFault env rs (client s')); reflexivity. }
    specialize (Hbody (onLog (writeAwaiting true) s)).
    unfold tryFinally.
    destruct (toolCallBody env ctx toolCall (onLog (writeAwaiting true) s)) as [s1 o].
    simpl in Hbody.
    destruct o; simpl; exact Hbody.
Qed.

(** X10.  [onInterrupted] leaves a transcript whose last turn is final, so a
    second interruption changes nothing. *)
Theorem onInterrupted_twice (s : State World) :
  (forall t,
     lastTurnOf (turns (logStore (fst (onInterrupted s)))) = Some t ->
     isFinal t = true) /\
  onInterrupted (fst (onInterrupted s)) = (fst (onInterrupted s), Returned tt).
Proof.
  assert (Hlast : forall t,
            lastTurnOf (turns (logStore (fst (onInterrupted s)))) = Some t ->
            isFinal t = true).
  { unfold onInterrupted.
    destruct (lastTurnOf (turns (logStore s))) as [t0 | ] eqn:Hl.
    - destruct (isFinal t0) eqn:Hf; simpl.
      + intros t Ht. rewrite Hl in Ht. injection Ht as <-. exact Hf.
      + destruct (lastTurnOf_inv _ _ Hl) as (earlier & ->).
        rewrite mergeLast_snoc, lastTurnOf_snoc. intros t Ht. injection Ht as <-.
        reflexivity.
    - simpl. intros t Ht. rewrite Hl in Ht. discriminate. }
  split; [exact Hlast | ].
  unfold onInterrupted at 1.
  destruct (lastTurnOf (turns (logStore (fst (onInterrupted s))))) as [t | ] eqn:Hl;
    [ | reflexivity].
  rewrite (Hlast t eq_refl). reflexivity.
Qed.

(** [disconnect] leaves no connection and marks the session disconnected,
    touches neither the transcript nor the map store (unlike [connect]),
    and may be repeated: a second call changes nothing. *)
Lemma disconnect_is_idempotent (s : State World) :
  exists s',
    disconnect s = (s', Returned tt) /\
    connected s' = false /\
    sessions (client s') = [] /\
    status (client s') = Disconnected /\
    logStore s' = logStore s /\
    mapStore s' = mapStore s /\
    disconnect s' = (s', Returned tt).
Proof.
  eexists. split; [reflexivity | ]. repeat split.
Qed.


End EventSequences.

(** ** The listeners of the effect *)

Lemma off_app (n : string) (l : Listener) (t u : Listeners) :
  off n l (t ++ u) = off n l t ++ off n l u.
Proof. unfold off. apply filter_app. Qed.

Lemma off_foreign (n : string) (run : nat) (h : Handler) (t : Listeners) :
  Forall foreign t -> off n (HookListener run h) t = t.
Proof.
  induction 1 as [ | [n' l'] t Hf _ IH]; [reflexivity | ].
  unfold off in *. simpl. destruct l' as [r' h' | k]; [contradiction Hf | ].
  simpl. rewrite andb_false_r. simpl. rewrite IH. reflexivity.
Qed.

Lemma unsubscribe_app (run : nat) (t u : Listeners) :
  unsubscribe run (t ++ u) = unsubscribe run t ++ unsubscribe run u.
Proof. unfold unsubscribe. rewrite !off_app. reflexivity. Qed.

Lemma unsubscribe_foreign (run : nat) (t : Listeners) :
  Forall foreign t -> unsubscribe run t = t.
Proof.
  intro H. unfold unsubscribe.
  rewrite !(fun n h => off_foreign n run h t H). reflexivity.
Qed.

Lemma unsubscribe_own (run : nat) : unsubscribe run (hookListeners run) = [].
Proof.
  unfold unsubscribe, hookListeners, off. cbn.
  repeat (rewrite Nat.eqb_refl; cbn). reflexivity.
Qed.

Lemma subscribe_app (run : nat) (t : Listeners) :
  subscribe run t = t ++ hookListeners run.
Proof.
  unfold subscribe, on, hookListeners. rewrite <- !app_assoc. reflexivity.
Qed.

(** X12.  The cleanup of the effect takes back all six subscriptions of its run
    and nothing else.  So over the life of the component, however often
    the effect runs again, the emitter holds the listeners of the other
    subscribers as they were and, for every event, the one listener of the
    last run: no event is ever handled twice. *)
Theorem effect_never_leaks_listeners (last : nat) (t : Listeners) :
  Forall foreign t ->
  unsubscribe last (subscribe last t) = t /\
  afterRuns last t = t ++ hookListeners last.
Proof.
  intro Hf.
  assert (Hclean : forall run, unsubscribe run (subscribe run t) = t).
  { intro run. rewrite subscribe_app, unsubscribe_app, unsubscribe_own,
      (unsubscribe_foreign _ _ Hf). apply app_nil_r. }
  split; [apply Hclean | ].
  induction last as [ | before IH]; simpl.
  - apply subscribe_app.
  - rewrite IH, <- subscribe_app, Hclean. apply subscribe_app.
Qed.

(* ================================================================= *)
(** * Properties of the grounded requests *)

Section GroundedRequestFacts.

Variable genv : GroundingEnv.

(** X13.  In every environment, [fetchAgriculturalRecommendations] moves the
    camera exactly when it returns: then the target is written once, to
    the pose over the given coordinate, auto-framing is suppressed and the
    markers are as they were; when it throws or stays pending, for
    whatever reason, the map store is as it was. *)
Theorem fetchAgriculturalRecommendations_zooms_only_on_success
    (params : AgriculturalParameters) (m : MapStore) :
  match fetchAgriculturalRecommendations genv params m with
  | (m', Returned _) =>
      cameraTargetUpdates m'
        = cameraTargetUpdates m ++ [zoomTarget (latitude params) (longitude params)] /\
      cameraTarget m' = Some (zoomTarget (latitude params) (longitude params)) /\
      preventAutoFrame m' = true /\
      markers m' = markers m
  | (m', _) => m' = m
  end.
Proof.
  unfold fetchAgriculturalRecommendations.
  destruct (apiKeyMissing genv); [reflexivity | ].
  unfold tryCatch, bind, await.
  destruct (fetch genv (recommendationRequest genv params)) as [r | e | ];
    try reflexivity.
  destruct (ok r); simpl; [ | reflexivity].
  destruct (parseJson genv (responseText r)); simpl; try reflexivity.
  repeat split.
Qed.

(** X14.  Without credential, the variable unset or empty, each of the three
    requests fails with the same error before anything is sent: the result
    does not depend on what the endpoint would answer, and no state is
    touched. *)
Theorem requests_need_the_api_key
    (generateContent : Json -> Outcome Json)
    (params : AgriculturalParameters) (m : MapStore)
    (prompt : string) (enableWidget : option bool) (lat lng : option number)
    (systemInstruction : option string) :
  API_KEY genv = None \/ API_KEY genv = Some EmptyString ->
  let missing := Error "Missing required environment variable: API_KEY" in
  fetchAgriculturalRecommendations genv params m = (m, Thrown missing) /\
  fetchMapsGroundedResponseREST genv prompt enableWidget lat lng systemInstruction m
    = (m, Thrown missing) /\
  fetchMapsGroundedResponseSDK genv generateContent prompt enableWidget lat lng
    systemInstruction m = (m, Thrown missing).
Proof.
  intros Hkey missing.
  assert (Hmissing : apiKeyMissing genv = true).
  { unfold apiKeyMissing. destruct Hkey as [-> | ->]; reflexivity. }
  unfold fetchAgriculturalRecommendations, fetchMapsGroundedResponseREST,
    fetchMapsGroundedResponseSDK.
  rewrite Hmissing. repeat split.
Qed.

(** X15.  How the generic requests are built.  An absent [enableWidget] means
    [true] and an empty system instruction means the default one; the
    grounding is pinned to a coordinate exactly when both [lat] and [lng]
    are given, a given zero included, and with one of them missing the
    other is dropped without notice.  The SDK request follows the same
    rule. *)
Theorem request_defaults_and_pinning
    (prompt : string) (enableWidget : option bool) (lat lng : option number)
    (systemInstruction : option string) :
  restRequestBody prompt None lat lng systemInstruction
    = restRequestBody prompt (Some true) lat lng systemInstruction /\
  restRequestBody prompt enableWidget lat lng (Some EmptyString)
    = restRequestBody prompt enableWidget lat lng None /\
  (getField "toolConfig" (restRequestBody prompt enableWidget lat lng systemInstruction)
     = None <-> lat = None \/ lng = None) /\
  (getField "toolConfig" (sdkRequest prompt lat lng systemInstruction)
     = None <-> lat = None \/ lng = None) /\
  getField "toolConfig"
    (restRequestBody prompt enableWidget (Some 0%float) (Some 0%float) systemInstruction)
    <> None.
Proof.
  split; [reflexivity | ]. split; [reflexivity | ].
  split; [ | split].
  - destruct lat, lng; cbn; split; intro H;
      try discriminate; try reflexivity; auto;
      destruct H; discriminate.
  - destruct lat, lng; cbn; split; intro H;
      try discriminate; try reflexivity; auto;
      destruct H; discriminate.
  - cbn. discriminate.
Qed.

(** X16.  The agricultural request is the generic REST request on the
    agricultural prompt, with the widget enabled, the default system
    instruction and the grounding pinned to the farm, followed on success
    by the zoom to the farm: same request, same result, same errors. *)
Theorem fetchAgriculturalRecommendations_is_the_generic_request
    (params : AgriculturalParameters) (m : MapStore) :
  recommendationRequest genv params
    = restRequest genv (agriculturalPrompt genv params) (Some true)
        (Some (latitude params)) (Some (longitude params)) None /\
  fetchAgriculturalRecommendations genv params m
    = (data <- fetchMapsGroundedResponseREST genv (agriculturalPrompt genv params)
                 (Some true) (Some (latitude params)) (Some (longitude params)) None ;;
       zoomToLocation (latitude params) (longitude params) ;;
       ret data) m.
Proof.
  split; [reflexivity | ].
  unfold fetchAgriculturalRecommendations, fetchMapsGroundedResponseREST.
  change (restRequest genv (agriculturalPrompt genv params) (Some true)
            (Some (latitude params)) (Some (longitude params)) None)
    with (recommendationRequest genv params).
  destruct (apiKeyMissing genv); [reflexivity | ].
  unfold tryCatch, bind, await.
  destruct (fetch genv (recommendationRequest genv params)) as [r | e | ];
    try reflexivity.
  destruct (ok r); simpl; [ | reflexivity].
  destruct (parseJson genv (responseText r)); reflexivity.
Qed.

End GroundedRequestFacts.

(* ================================================================= *)
(** * Properties of the form *)

Lemma truthy_not_nan (x : number) : truthyNumber x = true -> isNaN x = false.
Proof.
  unfold truthyNumber. intro H. apply negb_true_iff in H.
  apply orb_false_iff in H. apply H.
Qed.

Lemma orZero_not_nan (x : number) : isNaN (orZero x) = false.
Proof.
  unfold orZero. destruct (truthyNumber x) eqn:E; [apply truthy_not_nan, E | reflexivity].
Qed.

Lemma orUndefined_tidy (x : number) : absentOrTruthy (orUndefined x).
Proof.
  unfold orUndefined. destruct (truthyNumber x) eqn:E; simpl; [exact E | exact I].
Qed.

Section FormFacts.

Variable parseFloat : string -> number.

Lemma onFormEvent_tidy (e : FormEvent) (data : AgriculturalParameters) :
  formDataTidy data -> formDataTidy (onFormEvent parseFloat e data).
Proof.
  intros (Hlat & Hlng & Hrain & Htemp & Hfarm & Hcrop).
  destruct e; simpl; repeat split; auto;
    try apply orZero_not_nan; try apply orUndefined_tidy.
  destruct value; simpl; auto.
Qed.

(** X17.  Whatever is typed into the form, in whatever order, and whatever
    [parseFloat] makes of it: the coordinates of the form data are never
    [NaN]; rainfall, temperature and farm size are absent or a number that
    is neither zero nor [NaN]; the previous crop is absent or not empty. *)
Theorem form_data_stays_tidy (events : list FormEvent) :
  formDataTidy (afterChanges parseFloat events initialFormData).
Proof.
  assert (Hinit : formDataTidy initialFormData) by (repeat split).
  unfold afterChanges. revert Hinit. generalize initialFormData.
  induction events as [ | e rest IH]; intros data Hdata; simpl; [exact Hdata | ].
  apply IH, onFormEvent_tidy, Hdata.
Qed.

Lemma afterChanges_app (xs ys : list FormEvent) (data : AgriculturalParameters) :
  afterChanges parseFloat (xs ++ ys) data
    = afterChanges parseFloat ys (afterChanges parseFloat xs data).
Proof. unfold afterChanges. apply fold_left_app. Qed.

Lemma irrigation_untouched (events : list FormEvent) :
  forall data,
    Forall (fun e => isIrrigationCheck e = false) events ->
    irrigationAvailable (afterChanges parseFloat events data) = irrigationAvailable data.
Proof.
  induction events as [ | e rest IH]; intros data Hall; [reflexivity | ].
  inversion Hall as [ | ? ? He Hrest]; subst.
  change (afterChanges parseFloat (e :: rest) data)
    with (afterChanges parseFloat rest (onFormEvent parseFloat e data)).
  rewrite (IH _ Hrest). destruct e; try reflexivity. discriminate He.
Qed.

(** X18.  The irrigation checkbox cannot be taken back.  Until it is first
    used the parameter is absent; from then on it holds what was last
    checked, through all other changes of the form, so it is never absent
    again and the prompt always carries an irrigation line. *)
Theorem irrigation_checkbox_is_sticky
    (before later : list FormEvent) (checked : bool) (data : AgriculturalParameters) :
  Forall (fun e => isIrrigationCheck e = false) later ->
  irrigationAvailable
    (afterChanges parseFloat (before ++ IrrigationCheck checked :: later) data)
    = Some checked /\
  irrigationLine
    (irrigationAvailable
       (afterChanges parseFloat (before ++ IrrigationCheck checked :: later) data))
    = ("Irrigation Available: " ++ (if checked then "Yes" else "No"))%string /\
  irrigationAvailable (afterChanges parseFloat later initialFormData) = None.
Proof.
  intro Hlater.
  assert (H : irrigationAvailable
                (afterChanges parseFloat (before ++ IrrigationCheck checked :: later) data)
              = Some checked).
  { rewrite afterChanges_app.
    change (afterChanges parseFloat (IrrigationCheck checked :: later)
              (afterChanges parseFloat before data))
      with (afterChanges parseFloat later
              (onIrrigationChange checked (afterChanges parseFloat before data))).
    rewrite (irrigation_untouched _ _ Hlater). reflexivity. }
  split; [exact H | ]. split; [rewrite H; reflexivity | ].
  rewrite (irrigation_untouched _ _ Hlater). reflexivity.
Qed.

End FormFacts.


Section SubmitFacts.

Variable genv : GroundingEnv.
Variable onSubmit : option (AgriculturalParameters -> option Exn).

(** X19.  A latitude or longitude of zero does not pass the first check of
    [handleSubmit]: a farm on the equator or on the prime meridian is
    turned away with the message for invalid coordinates; no request is
    made, the camera stays, the callback is not called, and the response
    shown before stays on display. *)
Theorem zero_coordinate_is_rejected (w : FormWorld) :
  isZero (latitude (formData (form w))) = true
    \/ isZero (longitude (formData (form w))) = true ->
  exists w',
    handleSubmit genv onSubmit w = (w', Returned tt) /\
    error (form w') = Some "Please enter valid latitude and longitude coordinates" /\
    response (form w') = response (form w) /\
    isSubmitting (form w') = isSubmitting (form w) /\
    formData (form w') = formData (form w) /\
    camera w' = camera w /\
    submissions w' = submissions w.
Proof.
  intro Hzero.
  assert (Hinvalid : validationError (formData (form w))
                     = Some "Please enter valid latitude and longitude coordinates").
  { unfold validationError.
    destruct Hzero as [H | H]; rewrite (zero_is_falsy _ H); simpl;
      [reflexivity | rewrite orb_true_r; reflexivity]. }
  unfold handleSubmit. rewrite Hinvalid.
  eexists. split; [reflexivity | ]. repeat split.
Qed.

(** What [handleSubmit] comes to once the checks have passed, by the
    result of the request. *)
Lemma handleSubmit_run (w : FormWorld) :
  validationError (formData (form w)) = None ->
  let failed (c : MapStore) : FormWorld * Outcome unit :=
    ({| form :=
          {| formData := formData (form w);
             showOptional := showOptional (form w);
             isSubmitting := false;
             response := None;
             error := Some "Error getting recommendations. Please try again." |};
        camera := c;
        submissions := submissions w |},
     Returned tt) in
  handleSubmit genv onSubmit w
    = match fetchAgriculturalRecommendations genv (formData (form w)) (camera w) with
      | (c, Returned JNull) => failed c
      | (c, Returned result) =>
          ({| form :=
                {| formData := formData (form w);
                   showOptional := showOptional (form w);
                   isSubmitting := false;
                   response := Some (responseTextOf result);
                   error :=
                     match onSubmit with
                     | Some callback =>
                         match callback (formData (form w)) with
                         | Some _ =>
                             Some "Error getting recommendations. Please try again."
                         | None => None
                         end
                     | None => None
                     end |};
              camera := c;
              submissions :=
                submissions w
                  ++ match onSubmit with
                     | Some _ => [formData (form w)]
                     | None => []
                     end |},
           Returned tt)
      | (c, Thrown _) => failed c
      | (c, Pending) =>
          ({| form :=
                {| formData := formData (form w);
                   showOptional := showOptional (form w);
                   isSubmitting := true;
                   response := None;
                   error := None |};
              camera := c;
              submissions := submissions w |},
           Pending)
      end.
Proof.
  intros Hvalid failed. subst failed. unfold handleSubmit. rewrite Hvalid.
  unfold bind, tryFinally, tryCatch, setIsSubmitting, setError, setResponse, onForm,
    update, onCamera, callOnSubmit, readResponseText, throw, ret. simpl.
  destruct (fetchAgriculturalRecommendations genv (formData (form w)) (camera w))
    as [c [result | e | ]]; simpl; try reflexivity.
  destruct result; simpl; try reflexivity;
    (destruct onSubmit as [callback | ]; simpl;
     [destruct (callback (formData (form w))); reflexivity
     | rewrite app_nil_r; reflexivity]).
Qed.

(** X20.  Submitting never throws and never changes the form data.  When the
    checks pass, the submitting flag is up while the request is pending
    and down as soon as the submission ends, whatever the request or the
    callback did. *)
Theorem handleSubmit_never_throws (w : FormWorld) :
  (forall e, snd (handleSubmit genv onSubmit w) <> Thrown e) /\
  formData (form (fst (handleSubmit genv onSubmit w))) = formData (form w) /\
  (validationError (formData (form w)) = None ->
   isSubmitting (form (fst (handleSubmit genv onSubmit w)))
     = match snd (handleSubmit genv onSubmit w) with
       | Pending => true
       | _ => false
       end).
Proof.
  destruct (validationError (formData (form w))) as [message | ] eqn:Hvalid.
  - unfold handleSubmit. rewrite Hvalid.
    split; [intros e H; discriminate H | ].
    split; [reflexivity | intro H; discriminate H].
  - rewrite (handleSubmit_run w Hvalid).
    destruct (fetchAgriculturalRecommendations genv (formData (form w)) (camera w))
      as [c [[ | b | x | t | items | fields] | e | ]]; cbv zeta; simpl;
      (split; [intros e' H; discriminate H | split; reflexivity]).
Qed.


End SubmitFacts.

(* ================================================================= *)
(** * The tool declaration and the parameters *)

(** X22.  The declaration of the tool and the parameters of the request agree:
    the values the schema allows for soil type, climate and season are
    exactly the names the prompt prints for the members of these types,
    different members having different names; every required property is
    declared, and the required properties are the five fields of the
    parameters that are not optional. *)
Theorem tool_declaration_matches_parameters :
  (forall s, In s ["clay"; "sandy"; "loamy"; "silt"; "peat"]
             <-> exists x, soilTypeName x = s) /\
  allowedValues agriculturalRecommendationTool "soilType"
    = Some (List.map soilTypeName [clay; sandy; loamy; silt; peat]) /\
  allowedValues agriculturalRecommendationTool "climate"
    = Some (List.map climateName [tropical; arid; temperate; continental; polar]) /\
  allowedValues agriculturalRecommendationTool "season"
    = Some (List.map seasonName [spring; summer; fall; winter]) /\
  (forall x y, soilTypeName x = soilTypeName y -> x = y) /\
  (forall x y, climateName x = climateName y -> x = y) /\
  (forall x y, seasonName x = seasonName y -> x = y) /\
  (forall key, In key (required agriculturalRecommendationTool) ->
               schemaOf key (properties agriculturalRecommendationTool) <> None) /\
  required agriculturalRecommendationTool
    = ["latitude"; "longitude"; "soilType"; "climate"; "season"].
Proof.
  split.
  { intro s. split.
    - intro H. simpl in H.
      destruct H as [<- | [<- | [<- | [<- | [<- | []]]]]];
        [exists clay | exists sandy | exists loamy | exists silt | exists peat];
        reflexivity.
    - intros [x <-]. destruct x; simpl; auto 6. }
  split; [reflexivity | ]. split; [reflexivity | ]. split; [reflexivity | ].
  split; [intros [] []; simpl; intro H; try reflexivity; discriminate H | ].
  split; [intros [] []; simpl; intro H; try reflexivity; discriminate H | ].
  split; [intros [] []; simpl; intro H; try reflexivity; discriminate H | ].
  split; [ | reflexivity].
  intros key H. simpl in H.
  destruct H as [<- | [<- | [<- | [<- | [<- | []]]]]]; cbn; discriminate.
Qed.

(* ================================================================= *)
(** * The further properties on the sample environments *)

Lemma returning_tool_is_answered_with_its_result_witness :
  handleFunctionCalls sampleEnv sampleContext sampleCalls [] freshState
    = handleFunctionCalls sampleEnv sampleContext (tl sampleCalls)
        [ {| responseId := "call-1"; responseName := "mapsGrounding";
             result := JString "3 places found" |} ]
        {| logStore :=
             {| turns := [systemTurn
                            (triggerMessage sampleEnv
                               {| id := "call-1"; name := "mapsGrounding";
                                  args := JObject [] |})];
                isAwaitingFunctionResponse := false;
                awaitingHistory := [] |};
           mapStore := emptyMap;
           client := idleClient;
           connected := false;
           world := ["mapsGrounding"] |}.
Proof.
  exact (returning_tool_is_answered_with_its_result sampleEnv sampleContext
           {| id := "call-1"; name := "mapsGrounding"; args := JObject [] |}
           (tl sampleCalls) [] freshState _ emptyMap ["mapsGrounding"]
           (JString "3 places found") eq_refl eq_refl eq_refl).
Defined.

Lemma onToolCall_dropped_when_logging_fails_witness :
  onToolCall refusingEnv sampleContext {| functionCalls := sampleCalls |} freshState
    = (onLog (writeAwaiting false) (onLog (writeAwaiting true) freshState),
       Thrown (Error "log store full")).
Proof.
  exact (onToolCall_dropped_when_logging_fails refusingEnv sampleContext
           {| id := "call-1"; name := "mapsGrounding"; args := JObject [] |}
           (tl sampleCalls) freshState (Error "log store full") eq_refl).
Defined.

Lemma onToolCall_logs_the_batch_it_sends_witness :
  exists rs,
    toolResponses
      (client (fst (onToolCall sampleEnv sampleContext
                      {| functionCalls := sampleCalls |} freshState))) = [rs] /\
    lastTurnOf
      (turns (logStore (fst (onToolCall sampleEnv sampleContext
                               {| functionCalls := sampleCalls |} freshState))))
      = Some {| role := system; text := responseMessage sampleEnv rs; isFinal := true |}.
Proof.
  apply (onToolCall_logs_the_batch_it_sends sampleEnv sampleContext sampleCalls freshState
           sampleEnv_logAccepts sampleEnv_handlersSettle).
  discriminate.
Defined.

Lemma settlingEnv_registrySettles : registrySettles settlingEnv.
Proof.
  intros n impl Hreg a c mw. simpl in Hreg.
  destruct (String.eqb n "slowLookup") eqn:Hslow; [discriminate | ].
  unfold sampleRegistry in Hreg. rewrite Hslow in Hreg.
  destruct (String.eqb n "mapsGrounding");
    [injection Hreg as <-; simpl; discriminate | ].
  destruct (String.eqb n "frameLocations");
    [injection Hreg as <-; simpl; discriminate | discriminate].
Defined.

Lemma deliver_keeps_the_flag_lowered_witness :
  isAwaitingFunctionResponse
    (logStore (deliver settlingEnv sampleContext sampleEvents busyState)) = false.
Proof.
  apply (deliver_keeps_the_flag_lowered settlingEnv sampleContext sampleEvents
           settlingEnv_registrySettles busyState).
  reflexivity.
Defined.

Lemma onInterrupted_twice_witness :
  onInterrupted (fst (onInterrupted busyState))
    = (fst (onInterrupted busyState), Returned tt) /\
  lastTurnOf (turns (logStore (fst (onInterrupted busyState))))
    = Some {| role := agent; text := "For clay soils, cons"; isFinal := true |}.
Proof.
  destruct (onInterrupted_twice busyState) as (_ & Hagain).
  split; [exact Hagain | reflexivity].
Defined.

Lemma effect_never_leaks_listeners_witness :
  unsubscribe 3 (subscribe 3 otherListeners) = otherListeners /\
  afterRuns 3 otherListeners = otherListeners ++ hookListeners 3.
Proof.
  apply (effect_never_leaks_listeners 3 otherListeners).
  repeat constructor.
Defined.

Lemma requests_need_the_api_key_witness :
  fetchAgriculturalRecommendations keylessGroundingEnv sampleParameters emptyMap
    = (emptyMap, Thrown (Error "Missing required environment variable: API_KEY")).
Proof.
  destruct (requests_need_the_api_key keylessGroundingEnv (fun _ => Pending)
              sampleParameters emptyMap "where is the market?" None None None None
              (or_intror eq_refl)) as (Hagri & _).
  exact Hagri.
Defined.

Lemma request_defaults_and_pinning_witness :
  getField "toolConfig"
    (restRequestBody "where is the market?" None (Some 12.5%float) None None) = None.
Proof.
  destruct (request_defaults_and_pinning "where is the market?" None
              (Some 12.5%float) None None) as (_ & _ & Hpin & _).
  apply Hpin. right. reflexivity.
Defined.

Lemma irrigation_checkbox_is_sticky_witness :
  irrigationAvailable
    (afterChanges sampleParseFloat
       [RainfallInput "800"; IrrigationCheck true; IrrigationCheck false;
        PreviousCropInput "Rice"; RainfallInput "0"]
       initialFormData) = Some false.
Proof.
  destruct (irrigation_checkbox_is_sticky sampleParseFloat
              [RainfallInput "800"; IrrigationCheck true] [PreviousCropInput "Rice";
               RainfallInput "0"] false initialFormData) as (H & _).
  - repeat constructor.
  - exact H.
Defined.

Lemma zero_coordinate_is_rejected_witness :
  exists w',
    handleSubmit (sampleGroundingEnv 200 "{ }") None equatorForm = (w', Returned tt) /\
    error (form w') = Some "Please enter valid latitude and longitude coordinates" /\
    camera w' = emptyMap.
Proof.
  destruct (zero_coordinate_is_rejected (sampleGroundingEnv 200 "{ }") None equatorForm
              (or_introl eq_refl)) as (w' & Hrun & Herr & _ & _ & _ & Hcam & _).
  exists w'. split; [exact Hrun | split; [exact Herr | exact Hcam]].
Defined.

Lemma handleSubmit_never_throws_witness :
  isSubmitting (form (fst (handleSubmit (sampleGroundingEnv 503 "overloaded")
                             (Some (fun _ => None)) sampleForm))) = false.
Proof.
  destruct (handleSubmit_never_throws (sampleGroundingEnv 503 "overloaded")
              (Some (fun _ => None)) sampleForm) as (_ & _ & Hflag).
  exact (Hflag eq_refl).
Defined.


Lemma tool_declaration_matches_parameters_witness :
  exists x, soilTypeName x = "loamy".
Proof.
  destruct tool_declaration_matches_parameters as (Hsoil & _).
  apply (Hsoil "loamy"). simpl. auto.
Defined.
